(** * llmPlayground: provider abstraction, dispatch and text validation

    A shallow embedding of [llm_providers.py], of the [/api/summarize]
    handler of [modern_app.py] and of
    [DocumentProcessor.validate_text_content], with the properties the
    specification states about them.

    Modelling conventions.
    - A Python [str] is a [string]; each character stands for the code
      point of the same number (0..255).
    - A Python [int] is a [Z]; [len] is [Z.of_nat (length _)].
    - A Python [float] of elapsed seconds is the rational [Q] of its
      value; the mean of the statistics, a float computed by [sum] and
      a division, is not evaluated (see [average]).
    - [None] is [None]; a dict key that may be missing is an [option]. *)

From Stdlib Require Import ZArith QArith Ascii String List Lia.
From stdpp Require Import base decidable option list strings pretty.

Open Scope Z_scope.
Open Scope string_scope.
Open Scope list_scope.

(** ** Python string primitives *)

Module PyStr.

(** [str.isspace] on one character, for code points below 256:
    U+0009..U+000D, U+001C..U+001F, U+0020, U+0085 and U+00A0. *)
Definition isspace (c : ascii) : bool :=
  let n := N_of_ascii c in
  ((9 <=? n) && (n <=? 13) || (28 <=? n) && (n <=? 32)
   || (n =? 133) || (n =? 160))%N.

(** [s.lstrip()] *)
Fixpoint lstrip (s : string) : string :=
  match s with
  | EmptyString => EmptyString
  | String c s' => if isspace c then lstrip s' else s
  end.

(** [s.rstrip()]: a character is kept when it is not white space or
    when something is kept after it. *)
Fixpoint rstrip (s : string) : string :=
  match s with
  | EmptyString => EmptyString
  | String c s' =>
      match rstrip s' with
      | EmptyString => if isspace c then EmptyString else String c EmptyString
      | r => String c r
      end
  end.

(** [s.strip()] *)
Definition strip (s : string) : string := rstrip (lstrip s).

(** [s.split()] with no separator: the maximal runs of characters that
    are not white space.  [cur] is the run being read. *)
Fixpoint split_from (cur : string) (s : string) : list string :=
  match s with
  | EmptyString =>
      match cur with EmptyString => [] | _ => [cur] end
  | String c s' =>
      if isspace c then
        match cur with
        | EmptyString => split_from EmptyString s'
        | _ => cur :: split_from EmptyString s'
        end
      else split_from (cur +:+ String c EmptyString) s'
  end.

Definition split (s : string) : list string := split_from EmptyString s.

(** Truth value of a [str]: the empty string is false. *)
Definition truthy (s : string) : bool :=
  match s with EmptyString => false | _ => true end.

(** Truth value of an [Optional[str]]: [None] and [""] are false. *)
Definition truthy_opt (o : option string) : bool :=
  match o with Some s => truthy s | None => false end.

(** [str(n)] for an [int] *)
Definition str_of_int (n : Z) : string := pretty n.

(** All characters are white space. *)
Fixpoint all_space (s : string) : bool :=
  match s with
  | EmptyString => true
  | String c s' => isspace c && all_space s'
  end.

End PyStr.

(** ** Text validator ([document_processor.py]) *)

Module DocumentProcessor.

Record validation := {
  valid : bool;
  error : option string;
  word_count : Z
}.

Definition validate_text_content (text : string) (min_words max_words : Z)
  : validation :=
  if negb (PyStr.truthy text) || negb (PyStr.truthy (PyStr.strip text)) then
    {| valid := false;
       error := Some "Text content is empty";
       word_count := 0 |}
  else
    let words := PyStr.split text in
    let word_count := Z.of_nat (length words) in
    if (word_count <? min_words)%Z then
      {| valid := false;
         error := Some ("Text too short. Minimum " +:+ PyStr.str_of_int min_words
                        +:+ " words required, got " +:+ PyStr.str_of_int word_count);
         word_count := word_count |}
    else if (word_count >? max_words)%Z then
      {| valid := false;
         error := Some ("Text too long. Maximum " +:+ PyStr.str_of_int max_words
                        +:+ " words allowed, got " +:+ PyStr.str_of_int word_count);
         word_count := word_count |}
    else
      {| valid := true; error := None; word_count := word_count |}.

(** The defaults of the signature: [min_words=50], [max_words=10000]. *)
Definition validate_default (text : string) : validation :=
  validate_text_content text 50 10000.

End DocumentProcessor.

(** A text of [n] one-letter words, each followed by a blank. *)
Fixpoint words_text (n : nat) : string :=
  match n with
  | O => EmptyString
  | S n' => String "w" (String " " (words_text n'))
  end.

(** ** The outside world

    Everything the code reads from outside the process is an oracle of
    the [World].  Network replies may change from one request to the
    next: they are indexed by the number of requests issued so far.  The
    wall clock is indexed by the number of times it has been read. *)

(** A network request, as logged in the trace of the process. *)
Inductive event :=
| GroqChat (api_key model prompt : string) (max_tokens : Z)
| OllamaTags (url : string)
| OllamaGenerate (url model prompt : string) (num_predict : Z).

(** [Groq(api_key=...)] after [from groq import Groq]. *)
Inductive ctor_reply :=
| CtorOk
| CtorImportError
| CtorRaise (msg : string).

(** [client.chat.completions.create(...)] and the reading of its reply:
    the message content and [usage.total_tokens] when [usage] is there,
    or any exception, with its [str(e)]. *)
Inductive chat_reply :=
| ChatOk (content : string) (total_tokens : option Z)
| ChatRaise (msg : string).

(** Body of [GET /api/tags]: not readable as
    [{"models": [{"name": ...}, ...]}], or the names it lists (none when
    the key ["models"] is missing). *)
Inductive tags_body :=
| TagsBad
| TagsModels (names : list string).

Inductive tags_reply :=
| TagsRaise
| TagsResp (status_code : Z) (body : tags_body).

(** Body of [POST /api/generate]: reading it raises, or it has an
    optional ["response"] and an optional ["eval_count"] (an integer
    when present). *)
Inductive gen_body :=
| GenBad (msg : string)
| GenJson (response : option string) (eval_count : option Z).

Inductive gen_reply :=
| GenTimeout
| GenRaise (msg : string)
| GenResp (status_code : Z) (body : gen_body).

Record World := {
  getenv_GROQ_API_KEY : option string;
  groq_ctor : string -> ctor_reply;
  groq_chat : nat -> string -> string -> string -> Z -> chat_reply;
  ollama_tags : nat -> string -> tags_reply;
  ollama_generate : nat -> string -> string -> string -> Z -> gen_reply;
  clock : nat -> Q
}.

(** ** The manager object and the process state *)

Record DualLLMManager := {
  groq_api_key : option string;
  ollama_base_url : string
}.

(** The global [llm_manager] of [modern_app.py], the requests issued so
    far (oldest first) and the number of clock readings. *)
Record State := {
  llm_manager : DualLLMManager;
  trace : list event;
  ticks : nat
}.

(** ** A state and exception monad *)

Inductive result (A : Type) :=
| Ret (a : A)
| Raise (msg : string).
Arguments Ret {A} a.
Arguments Raise {A} msg.

Definition M (A : Type) : Type := State -> result A * State.

Definition ret {A} (a : A) : M A := fun s => (Ret a, s).

Definition raise {A} (msg : string) : M A := fun s => (Raise msg, s).

Definition bind {A B} (m : M A) (k : A -> M B) : M B :=
  fun s =>
    match m s with
    | (Ret a, s') => k a s'
    | (Raise msg, s') => (Raise msg, s')
    end.

(** [try: m  except Exception as e: h(str(e))] *)
Definition try_except {A} (m : M A) (h : string -> M A) : M A :=
  fun s =>
    match m s with
    | (Ret a, s') => (Ret a, s')
    | (Raise msg, s') => h msg s'
    end.

Notation "'do' x <- c ; k" := (bind c (fun x => k))
  (at level 10, x name, c at level 100, k at level 200).

(** [for x in xs: acc = body(acc, x)] *)
Fixpoint for_each {A B} (xs : list A) (acc : B) (body : B -> A -> M B) : M B :=
  match xs with
  | [] => ret acc
  | x :: xs' => do acc' <- body acc x; for_each xs' acc' body
  end.

Definition log (e : event) (s : State) : State :=
  {| llm_manager := llm_manager s;
     trace := trace s ++ [e];
     ticks := ticks s |}.

Definition set_manager (m : DualLLMManager) (s : State) : State :=
  {| llm_manager := m; trace := trace s; ticks := ticks s |}.

Definition get_llm_manager : M DualLLMManager :=
  fun s => (Ret (llm_manager s), s).

Section Primitives.
Context (w : World).

(** [time.time()] *)
Definition time_time : M Q :=
  fun s => (Ret (clock w (ticks s)),
            {| llm_manager := llm_manager s;
               trace := trace s;
               ticks := S (ticks s) |}).

(** [requests.get(url, timeout=5)] on the tags endpoint *)
Definition requests_get_tags (url : string) : M tags_reply :=
  fun s => (Ret (ollama_tags w (length (trace s)) url), log (OllamaTags url) s).

(** [requests.post(url, json=payload, timeout=120)] on the generate
    endpoint *)
Definition requests_post_generate (url model prompt : string) (num_predict : Z)
  : M gen_reply :=
  fun s => (Ret (ollama_generate w (length (trace s)) url model prompt num_predict),
            log (OllamaGenerate url model prompt num_predict) s).

(** [client.chat.completions.create(model=..., messages=[...],
    max_tokens=..., temperature=0.3, top_p=1, stream=False)] *)
Definition chat_completions_create (api_key model prompt : string) (max_tokens : Z)
  : M chat_reply :=
  fun s => (Ret (groq_chat w (length (trace s)) api_key model prompt max_tokens),
            log (GroqChat api_key model prompt max_tokens) s).

End Primitives.

(** ** Providers ([llm_providers.py]) *)

(** The dict every [generate_summary] returns.  The key ["error"] is
    missing from the dict of a success: [error] is [None] then. *)
Record outcome := {
  summary : string;
  success : bool;
  response_time : Q;
  token_count : option Z;
  model : string;
  provider : string;
  error : option string
}.

Definition newline : string := String (ascii_of_nat 10) EmptyString.

(** The f-string both providers build. *)
Definition build_prompt (text : string) (max_length : Z) : string :=
  "Please provide a concise summary of the following text in approximately "
  +:+ PyStr.str_of_int max_length
  +:+ " words. Focus on the main points and key information:"
  +:+ newline +:+ newline +:+ text +:+ newline +:+ newline +:+ "Summary:".

(** [d.get(k)] on a dict literal of strings, kept in source order. *)
Fixpoint dict_get (d : list (string * string)) (k : string) : option string :=
  match d with
  | [] => None
  | (k', v) :: d' => if String.eqb k k' then Some v else dict_get d' k
  end.

(** [list(d.keys())] *)
Definition dict_keys {V} (d : list (string * V)) : list string := fst <$> d.

Arguments dict_get : simpl never.
Arguments dict_keys : simpl never.

(** *** Cloud provider *)

Record GroqClient := { client_api_key : string }.

Record GroqProvider := {
  groq_model_name : string;
  groq_self_api_key : option string;
  groq_client : option GroqClient
}.

(** [model_info] of [GroqProvider]: model identifier, display name. *)
Definition groq_model_info : list (string * string) :=
  [ ("llama3-70b-8192", "Llama 3 70B");
    ("llama3-8b-8192", "Llama 3 8B");
    ("llama-3.1-70b-versatile", "Llama 3.1 70B");
    ("llama-3.1-8b-instant", "Llama 3.1 8B");
    ("mixtral-8x7b-32768", "Mixtral 8x7B");
    ("gemma-7b-it", "Gemma 7B");
    ("gemma2-9b-it", "Gemma 2 9B") ].

(** *** Local provider *)

Record OllamaProvider := {
  ollama_model_name : string;
  base_url : string
}.

(** [model_info] of [OllamaProvider]: model identifier, display name. *)
Definition ollama_model_info : list (string * string) :=
  [ ("llama3.1:8b", "Llama 3.1 8B");
    ("llama3.1:70b", "Llama 3.1 70B");
    ("llama3:8b", "Llama 3 8B");
    ("mistral:7b", "Mistral 7B");
    ("gemma:7b", "Gemma 7B");
    ("gemma2:9b", "Gemma 2 9B");
    ("phi3:mini", "Phi-3 Mini");
    ("codellama:7b", "CodeLlama 7B");
    ("neural-chat:7b", "Neural Chat 7B") ].

(** The abstract base class: what every provider offers. *)
Class BaseLLMProvider (P : Type) := {
  generate_summary : World -> P -> string -> Z -> M outcome;
  is_available : World -> P -> M bool;
  get_model_name : P -> string;
  get_provider_name : P -> string;
  get_display_name : P -> string
}.

Section Providers.
Context (w : World).

(** [GroqProvider.__init__]: [api_key or os.getenv("GROQ_API_KEY")],
    then a client when that key is true. *)
Definition GroqProvider_init (model_name : string) (api_key : option string)
  : M GroqProvider :=
  let key := if PyStr.truthy_opt api_key then api_key
             else getenv_GROQ_API_KEY w in
  match key with
  | Some k =>
      if PyStr.truthy k then
        match groq_ctor w k with
        | CtorOk =>
            ret {| groq_model_name := model_name;
                   groq_self_api_key := key;
                   groq_client := Some {| client_api_key := k |} |}
        | CtorImportError =>
            ret {| groq_model_name := model_name;
                   groq_self_api_key := key;
                   groq_client := None |}
        | CtorRaise msg => raise msg
        end
      else
        ret {| groq_model_name := model_name;
               groq_self_api_key := key;
               groq_client := None |}
  | None =>
      ret {| groq_model_name := model_name;
             groq_self_api_key := key;
             groq_client := None |}
  end.

(** [self.client is not None and self.api_key is not None] *)
Definition groq_is_available (self : GroqProvider) : bool :=
  match groq_client self with
  | Some _ => match groq_self_api_key self with Some _ => true | None => false end
  | None => false
  end.

Definition groq_failure (self : GroqProvider) (msg : string) (start_time : Q)
  : M outcome :=
  do now <- time_time w;
  ret {| summary := "Error generating summary: " +:+ msg;
         success := false;
         response_time := now - start_time;
         token_count := None;
         model := groq_model_name self;
         provider := "Groq (Cloud)";
         error := Some msg |}.

Definition groq_generate_summary (self : GroqProvider) (text : string)
    (max_length : Z) : M outcome :=
  do start_time <- time_time w;
  if negb (groq_is_available self) then
    ret {| summary := "Groq API key not configured";
           success := false;
           response_time := 0;
           token_count := None;
           model := groq_model_name self;
           provider := "Groq (Cloud)";
           error := Some "API key not provided" |}
  else
    let prompt := build_prompt text max_length in
    match groq_client self with
    | None =>
        groq_failure self "'NoneType' object has no attribute 'chat'" start_time
    | Some client =>
        do response <- chat_completions_create w (client_api_key client)
                         (groq_model_name self) prompt (max_length * 2);
        match response with
        | ChatOk content total_tokens =>
            let summary := PyStr.strip content in
            do now <- time_time w;
            ret {| summary := summary;
                   success := true;
                   response_time := now - start_time;
                   token_count := total_tokens;
                   model := groq_model_name self;
                   provider := "Groq (Cloud)";
                   error := None |}
        | ChatRaise msg => groq_failure self msg start_time
        end
    end.

Definition groq_get_display_name (self : GroqProvider) : string :=
  match dict_get groq_model_info (groq_model_name self) with
  | Some d => d
  | None => groq_model_name self
  end.

(** [OllamaProvider.is_available]: one probe of the tags endpoint. *)
Definition ollama_is_available (self : OllamaProvider) : M bool :=
  do response <- requests_get_tags w (base_url self +:+ "/api/tags");
  match response with
  | TagsResp status_code body =>
      if (status_code =? 200)%Z then
        match body with
        | TagsModels available_models =>
            ret (bool_decide (ollama_model_name self ∈ available_models))
        | TagsBad => ret false
        end
      else ret false
  | TagsRaise => ret false
  end.

Definition ollama_failure (self : OllamaProvider) (summary_text msg : string)
    (start_time : Q) : M outcome :=
  do now <- time_time w;
  ret {| summary := summary_text;
         success := false;
         response_time := now - start_time;
         token_count := None;
         model := ollama_model_name self;
         provider := "Ollama (Local)";
         error := Some msg |}.

Definition ollama_generate_summary (self : OllamaProvider) (text : string)
    (max_length : Z) : M outcome :=
  do start_time <- time_time w;
  do available <- ollama_is_available self;
  if negb available then
    ret {| summary := "Ollama model '" +:+ ollama_model_name self
                      +:+ "' not available. Please ensure Ollama is running and model is installed.";
           success := false;
           response_time := 0;
           token_count := None;
           model := ollama_model_name self;
           provider := "Ollama (Local)";
           error := Some ("Model " +:+ ollama_model_name self +:+ " not available") |}
  else
    let prompt := build_prompt text max_length in
    do response <- requests_post_generate w (base_url self +:+ "/api/generate")
                     (ollama_model_name self) prompt (max_length * 2);
    match response with
    | GenResp status_code body =>
        if (status_code =? 200)%Z then
          match body with
          | GenJson response eval_count =>
              let summary := PyStr.strip (default "" response) in
              do now <- time_time w;
              ret {| summary := summary;
                     success := true;
                     response_time := now - start_time;
                     token_count := eval_count;
                     model := ollama_model_name self;
                     provider := "Ollama (Local)";
                     error := None |}
          | GenBad msg =>
              ollama_failure self ("Error generating summary: " +:+ msg) msg start_time
          end
        else
          ollama_failure self ("Ollama API error: " +:+ PyStr.str_of_int status_code)
            ("API error: " +:+ PyStr.str_of_int status_code) start_time
    | GenTimeout =>
        ollama_failure self
          "Request timed out. Local model may be too large for available resources."
          "Request timeout" start_time
    | GenRaise msg =>
        ollama_failure self ("Error generating summary: " +:+ msg) msg start_time
    end.

Definition ollama_get_display_name (self : OllamaProvider) : string :=
  match dict_get ollama_model_info (ollama_model_name self) with
  | Some d => d
  | None => ollama_model_name self
  end.

End Providers.

#[export] Instance GroqProvider_provider : BaseLLMProvider GroqProvider := {
  generate_summary := groq_generate_summary;
  is_available := fun _ self => ret (groq_is_available self);
  get_model_name := groq_model_name;
  get_provider_name := fun _ => "Groq (Cloud)";
  get_display_name := groq_get_display_name
}.

#[export] Instance OllamaProvider_provider : BaseLLMProvider OllamaProvider := {
  generate_summary := ollama_generate_summary;
  is_available := ollama_is_available;
  get_model_name := ollama_model_name;
  get_provider_name := fun _ => "Ollama (Local)";
  get_display_name := ollama_get_display_name
}.

(** A provider instance of either class. *)
Inductive provider_instance :=
| Groq (p : GroqProvider)
| Ollama (p : OllamaProvider).

(** ** The manager ([DualLLMManager]) *)

(** [self.groq_models]: label, model identifier, in source order. *)
Definition groq_models : list (string * string) :=
  [ ("Groq - Llama 3.1 70B", "llama-3.1-70b-versatile");
    ("Groq - Llama 3.1 8B", "llama-3.1-8b-instant");
    ("Groq - Llama 3 70B", "llama3-70b-8192");
    ("Groq - Llama 3 8B", "llama3-8b-8192");
    ("Groq - Mixtral 8x7B", "mixtral-8x7b-32768");
    ("Groq - Gemma 7B", "gemma-7b-it");
    ("Groq - Gemma 2 9B", "gemma2-9b-it") ].

(** [self.ollama_models]: label, model identifier, in source order. *)
Definition ollama_models : list (string * string) :=
  [ ("Ollama - Llama 3.1 8B", "llama3.1:8b");
    ("Ollama - Llama 3.1 70B", "llama3.1:70b");
    ("Ollama - Llama 3 8B", "llama3:8b");
    ("Ollama - Mistral 7B", "mistral:7b");
    ("Ollama - Gemma 7B", "gemma:7b");
    ("Ollama - Gemma 2 9B", "gemma2:9b");
    ("Ollama - Phi-3 Mini", "phi3:mini");
    ("Ollama - CodeLlama 7B", "codellama:7b");
    ("Ollama - Neural Chat 7B", "neural-chat:7b") ].

(** [DualLLMManager(groq_api_key=None,
    ollama_base_url="http://localhost:11434")] *)
Definition DualLLMManager_init (key : option string) : DualLLMManager :=
  {| groq_api_key := key; ollama_base_url := "http://localhost:11434" |}.

(** [d[k] = v] on a dict kept in insertion order: a key already there
    keeps its place and takes the new value. *)
Fixpoint dict_set {V} (d : list (string * V)) (k : string) (v : V)
  : list (string * V) :=
  match d with
  | [] => [(k, v)]
  | (k', v') :: d' =>
      if String.eqb k k' then (k', v) :: d' else (k', v') :: dict_set d' k v
  end.

Definition get_available_providers (self : DualLLMManager) : list string :=
  dict_keys groq_models ++ dict_keys ollama_models.

(** The labels of [ollama_models] whose model is in [installed_models]. *)
Definition installed_labels (installed_models : list string) : list string :=
  dict_keys
    (filter (fun entry => snd entry ∈ installed_models) ollama_models).

(** [self.groq_api_key = api_key] *)
Definition update_groq_api_key (self : DualLLMManager) (api_key : string)
  : DualLLMManager :=
  {| groq_api_key := Some api_key; ollama_base_url := ollama_base_url self |}.

Section Manager.
Context (w : World).

(** One probe; every exception ends in the empty list. *)
Definition _get_available_ollama_models (self : DualLLMManager)
  : M (list string) :=
  do response <- requests_get_tags w (ollama_base_url self +:+ "/api/tags");
  match response with
  | TagsResp status_code body =>
      if (status_code =? 200)%Z then
        match body with
        | TagsModels installed_models => ret (installed_labels installed_models)
        | TagsBad => ret []
        end
      else ret []
  | TagsRaise => ret []
  end.

Definition get_enabled_providers (self : DualLLMManager) : M (list string) :=
  let enabled :=
    if PyStr.truthy_opt (groq_api_key self) then dict_keys groq_models else [] in
  do enabled_ollama <- _get_available_ollama_models self;
  ret (enabled ++ enabled_ollama).

Definition get_provider_instance (self : DualLLMManager) (provider_name : string)
  : M (option provider_instance) :=
  match dict_get groq_models provider_name with
  | Some model_name =>
      do p <- GroqProvider_init w model_name (groq_api_key self);
      ret (Some (Groq p))
  | None =>
      match dict_get ollama_models provider_name with
      | Some model_name =>
          ret (Some (Ollama {| ollama_model_name := model_name;
                               base_url := ollama_base_url self |}))
      | None => ret None
      end
  end.

Definition manager_generate_summary (self : DualLLMManager)
    (provider_name text : string) (max_length : Z) : M outcome :=
  do provider <- get_provider_instance self provider_name;
  match provider with
  | None =>
      ret {| summary := "Provider '" +:+ provider_name +:+ "' not found";
             success := false;
             response_time := 0;
             token_count := None;
             model := "Unknown";
             provider := "Unknown";
             error := Some ("Provider '" +:+ provider_name +:+ "' not available") |}
  | Some (Groq p) => generate_summary w p text max_length
  | Some (Ollama p) => generate_summary w p text max_length
  end.

Definition generate_multiple_summaries (self : DualLLMManager)
    (provider_names : list string) (text : string) (max_length : Z)
  : M (list (string * outcome)) :=
  for_each provider_names []
    (fun results provider_name =>
       do r <- manager_generate_summary self provider_name text max_length;
       ret (dict_set results provider_name r)).

End Manager.

(** ** The summarize endpoint ([modern_app.py])

    The handler is modelled as its body reads, from a process in which
    the module has been loaded and [llm_manager] exists.  (The module
    calls [os.getenv] without importing [os]; the model takes the name
    as bound.) *)

Record SummarizationRequest := {
  req_text : string;
  req_models : list string;
  req_max_length : Z
}.

Record SummaryResponse := {
  sr_model : string;
  sr_summary : string;
  sr_response_time : Q;
  sr_token_count : option Z;
  sr_success : bool;
  sr_error : option string
}.

(** The value of ["avg_response_time"]: the [int] 0 of the [else]
    branch, or the [float] that [sum(times) / len(times)] evaluates to.
    The arithmetic of doubles is not modelled: that float is kept as the
    summands it is computed from, in the order [sum] takes them. *)
Inductive average :=
| AverageZero
| AverageOf (times : list Q).

Record Stats := {
  total : Z;
  successful : Z;
  failed : Z;
  avg_response_time : average;
  total_tokens : Z
}.

(** What the handler returns: the dict with ["error"] and no results, or
    the dict with ["message"], ["results"] and ["stats"]. *)
Inductive envelope :=
| Abort (error_message : string)
| Aggregate (ok : bool) (message : string)
    (results : list SummaryResponse) (stats : Stats).

(** [sum(...)] of ints. *)
Definition py_sum_Z (xs : list Z) : Z := fold_left Z.add xs 0%Z.

(** [n or 0] on an [Optional[int]] *)
Definition or_0 (n : option Z) : Z :=
  match n with Some z => z | None => 0%Z end.

Definition compute_stats (results : list SummaryResponse) : Stats :=
  let successful_results := filter (fun r => sr_success r = true) results in
  {| total := Z.of_nat (length results);
     successful := Z.of_nat (length successful_results);
     failed := Z.of_nat (length results) - Z.of_nat (length successful_results);
     avg_response_time :=
       match successful_results with
       | [] => AverageZero
       | _ => AverageOf (map sr_response_time successful_results)
       end;
     total_tokens :=
       py_sum_Z (map (fun r => or_0 (sr_token_count r)) successful_results) |}.

Section App.
Context (w : World).

(** One turn of the loop over [request.models]. *)
Definition summarize_one (request : SummarizationRequest)
    (results : list SummaryResponse) (model_label : string)
  : M (list SummaryResponse) :=
  try_except
    (do mgr <- get_llm_manager;
     do result <- manager_generate_summary w mgr model_label
                    (req_text request) (req_max_length request);
     ret (results ++
          [ {| sr_model := model_label;
               sr_summary := summary result;
               sr_response_time := response_time result;
               sr_token_count := token_count result;
               sr_success := success result;
               sr_error := if negb (success result) then error result else None |} ]))
    (fun e =>
       ret (results ++
            [ {| sr_model := model_label;
                 sr_summary := "";
                 sr_response_time := 0;
                 sr_token_count := None;
                 sr_success := false;
                 sr_error := Some e |} ])).

Definition generate_summaries (request : SummarizationRequest) : M envelope :=
  try_except
    (do mgr <- get_llm_manager;
     do enabled <- get_enabled_providers w mgr;
     match enabled with
     | [] =>
         ret (Abort "No API key configured. Please set up your Groq API key first.")
     | _ =>
         if negb (PyStr.truthy (PyStr.strip (req_text request))) then
           ret (Abort "No text provided for summarization.")
         else
           match req_models request with
           | [] => ret (Abort "No models selected for comparison.")
           | _ =>
               do results <- for_each (req_models request) [] (summarize_one request);
               let stats := compute_stats results in
               ret (Aggregate (0 <? successful stats)%Z
                      ("Generated " +:+ PyStr.str_of_int (successful stats)
                       +:+ " of " +:+ PyStr.str_of_int (total stats)
                       +:+ " summaries successfully.")
                      results stats)
           end
     end)
    (fun e => ret (Abort ("Unexpected error: " +:+ e))).

End App.

(** Run a computation from a state. *)
Definition run {A} (m : M A) (s : State) : result A * State := m s.

(** The requests a computation issues from [s]: what it appends to the
    trace. *)
Definition issued {A} (m : M A) (s : State) : list event :=
  drop (length (trace s)) (trace (snd (m s))).

(** The state in which a process with credential [key] starts. *)
Definition initial_state (key : option string) : State :=
  {| llm_manager := DualLLMManager_init key; trace := []; ticks := 0 |}.

(** ** Vocabulary of the statements, sample worlds and requests *)

Definition verdict_empty : DocumentProcessor.validation :=
  {| DocumentProcessor.valid := false;
     DocumentProcessor.error := Some "Text content is empty";
     DocumentProcessor.word_count := 0 |}.

Definition verdict_too_short (n : Z) : DocumentProcessor.validation :=
  {| DocumentProcessor.valid := false;
     DocumentProcessor.error :=
       Some ("Text too short. Minimum 50 words required, got " +:+ PyStr.str_of_int n);
     DocumentProcessor.word_count := n |}.

Definition verdict_too_long (n : Z) : DocumentProcessor.validation :=
  {| DocumentProcessor.valid := false;
     DocumentProcessor.error :=
       Some ("Text too long. Maximum 10000 words allowed, got " +:+ PyStr.str_of_int n);
     DocumentProcessor.word_count := n |}.

Definition verdict_valid (n : Z) : DocumentProcessor.validation :=
  {| DocumentProcessor.valid := true;
     DocumentProcessor.error := None;
     DocumentProcessor.word_count := n |}.

(** The key ["error"] is in the dict exactly when ["success"] is false. *)
Definition error_iff_failed (o : outcome) : Prop :=
  is_Some (error o) <-> success o = false.

Definition clock_seconds (n : nat) : Q := inject_Z (Z.of_nat n).

(** No credential in the environment, no network. *)
Definition world_offline : World :=
  {| getenv_GROQ_API_KEY := None;
     groq_ctor := fun _ => CtorOk;
     groq_chat := fun _ _ _ _ _ => ChatRaise "Connection error.";
     ollama_tags := fun _ _ => TagsRaise;
     ollama_generate := fun _ _ _ _ _ => GenRaise "Connection refused";
     clock := clock_seconds |}.

(** Both services answer; the local one has [llama3:8b] installed. *)
Definition world_online : World :=
  {| getenv_GROQ_API_KEY := None;
     groq_ctor := fun _ => CtorOk;
     groq_chat := fun _ _ _ _ _ => ChatOk " A cloud summary. " (Some 40);
     ollama_tags := fun _ _ => TagsResp 200 (TagsModels ["llama3:8b"]);
     ollama_generate := fun _ _ _ _ _ =>
       GenResp 200 (GenJson (Some "A local summary.") None);
     clock := clock_seconds |}.

(** As [world_online], with a credential in [GROQ_API_KEY]. *)
Definition world_env_key : World :=
  {| getenv_GROQ_API_KEY := Some "gsk_env";
     groq_ctor := groq_ctor world_online;
     groq_chat := groq_chat world_online;
     ollama_tags := ollama_tags world_online;
     ollama_generate := ollama_generate world_online;
     clock := clock_seconds |}.

(** The local service answers but every generation fails. *)
Definition world_failing : World :=
  {| getenv_GROQ_API_KEY := None;
     groq_ctor := fun _ => CtorOk;
     groq_chat := fun _ _ _ _ _ => ChatRaise "Invalid API Key";
     ollama_tags := fun _ _ => TagsResp 200 (TagsModels ["llama3:8b"]);
     ollama_generate := fun _ _ _ _ _ => GenTimeout;
     clock := clock_seconds |}.

Definition provider_without_key : GroqProvider :=
  {| groq_model_name := "llama3-8b-8192";
     groq_self_api_key := None;
     groq_client := None |}.

(** The dict the manager makes up for a label of neither catalog. *)
Definition not_found_outcome (provider_name : string) : outcome :=
  {| summary := "Provider '" +:+ provider_name +:+ "' not found";
     success := false;
     response_time := 0;
     token_count := None;
     model := "Unknown";
     provider := "Unknown";
     error := Some ("Provider '" +:+ provider_name +:+ "' not available") |}.

(** The probe answers 200 with a readable list that has [model_name]. *)
Definition probe_lists (r : tags_reply) (model_name : string) : bool :=
  match r with
  | TagsResp status_code (TagsModels names) =>
      (status_code =? 200)%Z && bool_decide (model_name ∈ names)
  | _ => false
  end.

(** The dict of a Local provider that is not available. *)
Definition unavailable_outcome (model_name : string) : outcome :=
  {| summary := "Ollama model '" +:+ model_name
                +:+ "' not available. Please ensure Ollama is running and model is installed.";
     success := false;
     response_time := 0;
     token_count := None;
     model := model_name;
     provider := "Ollama (Local)";
     error := Some ("Model " +:+ model_name +:+ " not available") |}.

Definition mistral_local : OllamaProvider :=
  {| ollama_model_name := "mistral:7b"; base_url := "http://localhost:11434" |}.

(** The value of the key ["results"] of the dict the handler returns. *)
Definition outcomes_of (e : envelope) : list SummaryResponse :=
  match e with
  | Abort _ => []
  | Aggregate _ _ results _ => results
  end.

(** The list [get_enabled_providers] returns from state [s]. *)
Definition enabled_at (w : World) (s : State) : list string :=
  match fst (run (get_enabled_providers w (llm_manager s)) s) with
  | Ret enabled => enabled
  | Raise _ => []
  end.

Definition abort_no_provider : envelope :=
  Abort "No API key configured. Please set up your Groq API key first.".

Definition abort_no_text : envelope :=
  Abort "No text provided for summarization.".

Definition abort_no_model : envelope :=
  Abort "No models selected for comparison.".

(** The message of a dict that has results. *)
Definition aggregate_message (stats : Stats) : string :=
  "Generated " +:+ PyStr.str_of_int (successful stats)
  +:+ " of " +:+ PyStr.str_of_int (total stats)
  +:+ " summaries successfully.".

(** The keys of a dict after [d[k] = v], in insertion order. *)
Definition add_key (keys : list string) (k : string) : list string :=
  if bool_decide (k ∈ keys) then keys else keys ++ [k].

(** The distinct labels of a list, in the order of their first
    occurrence. *)
Definition first_occurrences (labels : list string) : list string :=
  fold_left add_key labels [].

Definition two_same_labels : SummarizationRequest :=
  {| req_text := words_text 50;
     req_models := ["Ollama - Llama 3 8B"; "Ollama - Llama 3 8B"];
     req_max_length := 150 |}.

Definition one_cloud_label : SummarizationRequest :=
  {| req_text := words_text 50;
     req_models := ["Groq - Llama 3 8B"];
     req_max_length := 150 |}.

(** The statistics in the words of the specification: counts and sums
    over the outcomes, an outcome counting when it succeeded. *)
Fixpoint count_successful (rs : list SummaryResponse) : Z :=
  match rs with
  | [] => 0
  | r :: rs' => (if sr_success r then 1 else 0) + count_successful rs'
  end.

Fixpoint times_of_successful (rs : list SummaryResponse) : list Q :=
  match rs with
  | [] => []
  | r :: rs' =>
      if sr_success r then sr_response_time r :: times_of_successful rs'
      else times_of_successful rs'
  end.

Fixpoint sum_tokens_successful (rs : list SummaryResponse) : Z :=
  match rs with
  | [] => 0
  | r :: rs' =>
      (if sr_success r
       then match sr_token_count r with Some t => t | None => 0 end
       else 0) + sum_tokens_successful rs'
  end.

Definition succeeded (rs : list SummaryResponse) : list SummaryResponse :=
  filter (fun r => sr_success r = true) rs.

Definition mixed_request : SummarizationRequest :=
  {| req_text := words_text 50;
     req_models := ["Ollama - Llama 3 8B"; "Groq - Llama 3 8B"; "GPT-4"];
     req_max_length := 150 |}.

Definition two_labels_offline : SummarizationRequest :=
  {| req_text := words_text 50;
     req_models := ["Groq - Llama 3 8B"; "Ollama - Llama 3 8B"];
     req_max_length := 150 |}.

(** The credential a provider resolved under [mgr] works with. *)
Definition credential_in_force (w : World) (mgr : DualLLMManager)
  : option string :=
  if PyStr.truthy_opt (groq_api_key mgr) then groq_api_key mgr
  else getenv_GROQ_API_KEY w.

(** [llm_manager.update_groq_api_key(api_key)] on the global manager. *)
Definition replace_credential (api_key : string) (s : State) : State :=
  set_manager (update_groq_api_key (llm_manager s) api_key) s.

Definition provider_old_key : GroqProvider :=
  {| groq_model_name := "llama3-8b-8192";
     groq_self_api_key := Some "gsk_old";
     groq_client := Some {| client_api_key := "gsk_old" |} |}.

(** ** Vocabulary of the further properties *)

(** The wall clock never goes back. *)
Definition monotone_clock (w : World) : Prop :=
  forall i j : nat, (i <= j)%nat -> (clock w i <= clock w j)%Q.

(** What a provider's dict says about itself: the elapsed time is 0 or
    the difference of the two clock readings of the call, a failure has
    no token count, a success has a trimmed summary and no error, and
    the identity fields are [m] and [prov]. *)
Definition outcome_facts (w : World) (s : State) (m prov : string)
    (o : outcome) : Prop :=
  (response_time o = 0%Q
   \/ response_time o = (clock w (S (ticks s)) - clock w (ticks s))%Q) /\
  (success o = false -> token_count o = None) /\
  (success o = true -> PyStr.strip (summary o) = summary o) /\
  model o = m /\ provider o = prov.

(** The address the manager of [s] probes. *)
Definition probe_url (s : State) : string :=
  ollama_base_url (llm_manager s) +:+ "/api/tags".

(** A record of the handler is coherent: it has an error exactly when
    it is a failure, and a failure has no token count. *)
Definition record_ok (r : SummaryResponse) : Prop :=
  (is_Some (sr_error r) <-> sr_success r = false) /\
  (sr_success r = false -> sr_token_count r = None).

(** From [s] to [s'] the manager is untouched and at most [k] requests
    were sent. *)
Definition within (k : nat) (s s' : State) : Prop :=
  llm_manager s' = llm_manager s /\
  exists evs, trace s' = trace s ++ evs /\ (length evs <= k)%nat.

(** ** The other handlers of [modern_app.py]

    In the literals below a character outside Latin-1 stands as the
    bytes of its UTF-8 encoding. *)

Record ConfigureResponse := {
  cfg_success : bool;
  cfg_message : string;
  cfg_models : list string
}.

(** [s.startswith(prefix)] *)
Definition startswith (prefix s : string) : bool := String.prefix prefix s.

(** [llm_manager.update_groq_api_key(api_key)] *)
Definition llm_manager_update (api_key : string) : M unit :=
  fun s => (Ret tt, replace_credential api_key s).

(** [os.getenv(name)] in a handler of [modern_app.py].  The module never
    imports [os]: evaluating the name raises [NameError]. *)
Definition os_getenv (name : string) : M (option string) :=
  raise "name 'os' is not defined".

Record GroqStatus := {
  has_env_key : bool;
  masked_key : string;
  source : string
}.

(** ["*" * n] *)
Definition stars (n : nat) : list ascii := replicate n "*"%char.

(** The masking of [get_groq_status], on the characters of the key:
    [api_key[:4] + "*" * (len(api_key) - 8) + api_key[-4:]] for a key
    of more than 8 characters, else ["*" * len(api_key)]. *)
Definition mask_chars (api_key : list ascii) : list ascii :=
  if (8 <? length api_key)%nat then
    take 4 api_key ++ stars (length api_key - 8)
    ++ drop (length api_key - 4) api_key
  else stars (length api_key).

Definition mask_key (api_key : string) : string :=
  string_of_list_ascii (mask_chars (list_ascii_of_string api_key)).

(** The dict of [get_ollama_status]: available, with the number and the
    names of the models, or not available, with an error. *)
Inductive OllamaStatus :=
| StatusAvailable (model_count : Z) (models : list string)
| StatusUnavailable (error_text : string).

(** What the [World] does not record of a failed probe: the text
    [str(e)] of the exception raised by the request of that index or by
    the reading of its body. *)
Record ProbeErrors := {
  str_of_exception : nat -> string -> string
}.

Section Handlers.
Context (w : World).

(** The end of [configure_api_key], once the key is stored. *)
Definition configure_report (api_key_source : string) : M ConfigureResponse :=
  do mgr <- get_llm_manager;
  do enabled_models <- get_enabled_providers w mgr;
  match enabled_models with
  | [] =>
      ret {| cfg_success := false;
             cfg_message := "❌ Invalid API key. Please check and try again.";
             cfg_models := [] |}
  | _ =>
      let groq_models := List.filter (startswith "Groq") enabled_models in
      match groq_models with
      | [] =>
          ret {| cfg_success := true;
                 cfg_message :=
                   "✅ API key configured (" +:+ api_key_source
                   +:+ ")! Note: Groq models may take a moment to become available.";
                 cfg_models := enabled_models |}
      | _ =>
          ret {| cfg_success := true;
                 cfg_message :=
                   "✅ API key configured (" +:+ api_key_source +:+ ")! "
                   +:+ PyStr.str_of_int (Z.of_nat (length groq_models))
                   +:+ " Groq models available.";
                 cfg_models := enabled_models |}
      end
  end.

(** [POST /api/configure-key] *)
Definition configure_api_key (api_key : string) : M ConfigureResponse :=
  try_except
    (if String.eqb api_key "use_env_key" then
       do env_api_key <- os_getenv "GROQ_API_KEY";
       match env_api_key with
       | Some env_api_key =>
           if PyStr.truthy env_api_key then
             do _ <- llm_manager_update env_api_key;
             configure_report "environment variable"
           else
             ret {| cfg_success := false;
                    cfg_message := "❌ No environment API key found.";
                    cfg_models := [] |}
       | None =>
           ret {| cfg_success := false;
                  cfg_message := "❌ No environment API key found.";
                  cfg_models := [] |}
       end
     else
       do _ <- llm_manager_update api_key;
       configure_report "user input")
    (fun e =>
       ret {| cfg_success := false;
              cfg_message := "❌ Error: " +:+ e;
              cfg_models := [] |}).

(** [GET /api/models]: the pair of ["available"] and ["enabled"]. *)
Definition get_available_models : M (list string * list string) :=
  do mgr <- get_llm_manager;
  do enabled <- get_enabled_providers w mgr;
  ret (get_available_providers mgr, enabled).

(** [GET /api/groq-status]; nothing catches the [NameError]. *)
Definition get_groq_status : M GroqStatus :=
  do api_key <- os_getenv "GROQ_API_KEY";
  match api_key with
  | Some api_key =>
      if PyStr.truthy api_key then
        ret {| has_env_key := true;
               masked_key := mask_key api_key;
               source := "environment variable" |}
      else ret {| has_env_key := false; masked_key := ""; source := "none" |}
  | None => ret {| has_env_key := false; masked_key := ""; source := "none" |}
  end.

(** [DualLLMManager.get_ollama_status] *)
Definition get_ollama_status (errors : ProbeErrors) (self : DualLLMManager)
  : M OllamaStatus :=
  fun s =>
    let url := ollama_base_url self +:+ "/api/tags" in
    let e := str_of_exception errors (length (trace s)) url in
    (do response <- requests_get_tags w url;
     match response with
     | TagsResp status_code body =>
         if (status_code =? 200)%Z then
           match body with
           | TagsModels models =>
               ret (StatusAvailable (Z.of_nat (length models)) models)
           | TagsBad => ret (StatusUnavailable e)
           end
         else ret (StatusUnavailable ("HTTP " +:+ PyStr.str_of_int status_code))
     | TagsRaise => ret (StatusUnavailable e)
     end) s.

End Handlers.

(** The Local labels the probe sent from [s] enables. *)
Definition local_enabled_at (w : World) (s : State) : list string :=
  match ollama_tags w (length (trace s)) (probe_url s) with
  | TagsResp status_code (TagsModels installed_models) =>
      if (status_code =? 200)%Z then installed_labels installed_models else []
  | _ => []
  end.

(** The reply to a key that is stored and enables the Cloud labels. *)
Definition configured_response (api_key_source : string) (local : list string)
  : ConfigureResponse :=
  {| cfg_success := true;
     cfg_message := "✅ API key configured (" +:+ api_key_source
                    +:+ ")! 7 Groq models available.";
     cfg_models := dict_keys groq_models ++ local |}.

(** ** Extraction of PDF text ([document_processor.py],
    [modern_app.py]) *)

(** [s[:n]] *)
Fixpoint str_take (n : nat) (s : string) : string :=
  match n, s with
  | S n', String c s' => String c (str_take n' s')
  | _, _ => EmptyString
  end.

Arguments str_take : simpl never.

(** [s[n:]] *)
Fixpoint str_drop (n : nat) (s : string) : string :=
  match n, s with
  | S n', String _ s' => str_drop n' s'
  | _, _ => s
  end.

(** [c.lower()] for a code point below 256: the letters A..Z and the
    capital letters of Latin-1 move up by 32. *)
Definition lower_char (c : ascii) : ascii :=
  let n := N_of_ascii c in
  if ((65 <=? n) && (n <=? 90)
      || (192 <=? n) && (n <=? 222) && negb (n =? 215))%N
  then ascii_of_N (n + 32) else c.

(** [s.lower()] *)
Fixpoint lower (s : string) : string :=
  match s with
  | EmptyString => EmptyString
  | String c s' => String (lower_char c) (lower s')
  end.

(** [s.endswith(suffix)] *)
Definition endswith (suffix s : string) : bool :=
  (String.length suffix <=? String.length s)%nat
  && String.eqb (substring (String.length s - String.length suffix)
                   (String.length suffix) s) suffix.

(** What [page.extract_text()] gives for one page. *)
Inductive page_reply :=
| PageText (t : string)
| PageRaise (msg : string).

(** What [PyPDF2.PdfReader] makes of the bytes of a file. *)
Inductive pdf_reply :=
| PdfRaise (msg : string)
| PdfPages (pages : list page_reply).

(** The libraries around the extraction: the PDF reader, and the text
    [str(e)] of an [HTTPException] of a status code and a detail. *)
Record Libraries := {
  PdfReader : string -> pdf_reply;
  str_of_HTTPException : Z -> string -> string
}.

(** The argument of [extract_text_from_pdf]: a file object with
    [read], [seek] and [getvalue], named or not, that holds [content]
    and stands at [position]; or the bytes. *)
Inductive pdf_file :=
| FileObject (name : option string) (content : string) (position : nat)
| Bytes (content : string).

(** [pdf_file.read()] on a file object gives the content from its
    position on; the bytes are taken whole. *)
Definition pdf_read (file : pdf_file) : string :=
  match file with
  | FileObject _ content position => str_drop position content
  | Bytes content => content
  end.

(** [len(pdf_file.getvalue())] for a file object, whatever its
    position; [len(pdf_content)] for bytes. *)
Definition pdf_size (file : pdf_file) : Z :=
  match file with
  | FileObject _ content _ => Z.of_nat (String.length content)
  | Bytes content => Z.of_nat (String.length content)
  end.

Record pdf_metadata := {
  md_filename : string;
  md_page_count : Z;
  md_word_count : Z;
  md_char_count : Z;
  md_file_size : Z
}.

(** The dict of [extract_text_from_pdf].  It has two shapes: success
    with the text, the metadata and no error, or failure with an error,
    the empty text and empty metadata. *)
Inductive extraction :=
| Extracted (text : string) (metadata : pdf_metadata)
| NotExtracted (error_text : string).

(** What [process_pdf] returns: text, metadata and preview, or the
    value of the key ["error"]. *)
Inductive pdf_response :=
| PdfAccepted (text : string) (metadata : pdf_metadata) (preview : string)
| PdfRejected (error_text : option string).

(** The loop [text_content += page.extract_text() + "\n"]; the first
    page that raises ends it. *)
Fixpoint extract_pages (pages : list page_reply) (text_content : string)
  : string + string :=
  match pages with
  | [] => inl text_content
  | PageText t :: pages' => extract_pages pages' (text_content +:+ t +:+ newline)
  | PageRaise msg :: _ => inr msg
  end.

Section Pdf.
Context (lib : Libraries).

Definition extract_text_from_pdf (file : pdf_file) : extraction :=
  let pdf_content := pdf_read file in
  match PdfReader lib pdf_content with
  | PdfRaise msg => NotExtracted ("Error processing PDF: " +:+ msg)
  | PdfPages pages =>
      match extract_pages pages "" with
      | inr msg => NotExtracted ("Error processing PDF: " +:+ msg)
      | inl text_content =>
          let text_content := PyStr.strip text_content in
          if negb (PyStr.truthy text_content) then
            NotExtracted "No text content found in PDF"
          else
            let word_count := Z.of_nat (length (PyStr.split text_content)) in
            let char_count := Z.of_nat (String.length text_content) in
            let page_count := Z.of_nat (length pages) in
            let filename :=
              match file with
              | FileObject (Some name) _ _ => name
              | _ => "uploaded_document.pdf"
              end in
            let file_size := pdf_size file in
            Extracted text_content
              {| md_filename := filename;
                 md_page_count := page_count;
                 md_word_count := word_count;
                 md_char_count := char_count;
                 md_file_size := file_size |}
      end
  end.

(** [POST /api/process-pdf] for an upload of a name and a content. *)
Definition process_pdf (filename content : string) : pdf_response :=
  if negb (endswith ".pdf" (lower filename)) then
    PdfRejected (Some ("Error processing PDF: "
                       +:+ str_of_HTTPException lib 400 "Only PDF files are supported"))
  else
    match extract_text_from_pdf (FileObject (Some filename) content 0) with
    | Extracted text metadata =>
        let validation := DocumentProcessor.validate_default text in
        if DocumentProcessor.valid validation then
          PdfAccepted text metadata
            (if (500 <? String.length text)%nat
             then str_take 500 text +:+ "..."
             else text)
        else PdfRejected (DocumentProcessor.error validation)
    | NotExtracted error_text => PdfRejected (Some error_text)
    end.

End Pdf.

(** A reader that finds one page of sixty words in every file. *)
Definition sample_libraries : Libraries :=
  {| PdfReader := fun _ => PdfPages [PageText (words_text 60)];
     str_of_HTTPException := fun code detail =>
       PyStr.str_of_int code +:+ ": " +:+ detail |}.

(** As [world_online], without the [groq] package. *)
Definition world_without_groq : World :=
  {| getenv_GROQ_API_KEY := None;
     groq_ctor := fun _ => CtorImportError;
     groq_chat := groq_chat world_online;
     ollama_tags := ollama_tags world_online;
     ollama_generate := ollama_generate world_online;
     clock := clock_seconds |}.

(** The dict of a Cloud provider that is not available. *)
Definition not_configured_outcome (model_name : string) : outcome :=
  {| summary := "Groq API key not configured";
     success := false;
     response_time := 0;
     token_count := None;
     model := model_name;
     provider := "Groq (Cloud)";
     error := Some "API key not provided" |}.

(** * Properties *)

Ltac step_monad :=
  unfold run, bind, ret, raise, try_except, time_time, requests_get_tags,
    requests_post_generate, chat_completions_create, get_llm_manager; simpl.

Ltac verdict_clash H :=
  apply (f_equal DocumentProcessor.error) in H; cbn in H;
  try discriminate H;
  apply (f_equal DocumentProcessor.valid) in H; discriminate H.

(** ** Strings *)

Lemma truthy_false_iff (s : string) : PyStr.truthy s = false <-> s = "".
Proof. destruct s; simpl; split; congruence. Qed.

Lemma lstrip_empty_iff (s : string) :
  PyStr.lstrip s = "" <-> PyStr.all_space s = true.
Proof.
  induction s as [|c s IH]; simpl; [tauto|].
  destruct (PyStr.isspace c); simpl; [exact IH|].
  split; discriminate.
Qed.

Lemma rstrip_empty_iff (s : string) :
  PyStr.rstrip s = "" <-> PyStr.all_space s = true.
Proof.
  induction s as [|c s IH]; simpl; [tauto|].
  destruct (PyStr.rstrip s) as [|c' r].
  - destruct (PyStr.isspace c); simpl.
    + split; [intros _; apply IH; reflexivity | reflexivity].
    + split; discriminate.
  - split; [discriminate|].
    intros H. apply andb_true_iff in H as [_ H].
    apply IH in H. discriminate.
Qed.

Lemma all_space_lstrip (s : string) :
  PyStr.all_space (PyStr.lstrip s) = PyStr.all_space s.
Proof.
  induction s as [|c s IH]; simpl; [reflexivity|].
  destruct (PyStr.isspace c) eqn:E; simpl; [exact IH|].
  rewrite E. reflexivity.
Qed.

Lemma strip_empty_iff (s : string) :
  PyStr.strip s = "" <-> PyStr.all_space s = true.
Proof.
  unfold PyStr.strip. rewrite rstrip_empty_iff, all_space_lstrip. tauto.
Qed.

Lemma append_char_nonempty (cur : string) (c : ascii) :
  cur +:+ String c "" <> "".
Proof. destruct cur; discriminate. Qed.

Lemma split_from_nil_iff (s cur : string) :
  PyStr.split_from cur s = [] <-> cur = "" /\ PyStr.all_space s = true.
Proof.
  revert cur. induction s as [|c s IH]; intros cur; simpl.
  - destruct cur; split; try tauto; try discriminate.
    intros [H _]. discriminate.
  - destruct (PyStr.isspace c); simpl.
    + destruct cur.
      * rewrite IH. tauto.
      * split; [discriminate|]. intros [H _]. discriminate.
    + rewrite IH. split.
      * intros [H _]. destruct (append_char_nonempty _ _ H).
      * intros [_ H]. discriminate.
Qed.

Lemma split_nil_iff (s : string) :
  PyStr.split s = [] <-> PyStr.all_space s = true.
Proof. unfold PyStr.split. rewrite split_from_nil_iff. tauto. Qed.

(** A text is blank after trimming exactly when it has no word. *)
Lemma blank_iff_no_word (s : string) :
  PyStr.strip s = "" <-> Z.of_nat (length (PyStr.split s)) = 0.
Proof.
  rewrite strip_empty_iff, <- split_nil_iff.
  destruct (PyStr.split s); simpl; split; try reflexivity; discriminate.
Qed.

(** ** The text validator *)

(** The four verdicts, by the tests of the code in their order. *)
Lemma validate_default_cases (text : string) :
  let n := Z.of_nat (length (PyStr.split text)) in
  (PyStr.strip text = "" /\
   DocumentProcessor.validate_default text = verdict_empty) \/
  (PyStr.strip text <> "" /\ 0 < n < 50 /\
   DocumentProcessor.validate_default text = verdict_too_short n) \/
  (PyStr.strip text <> "" /\ 10000 < n /\
   DocumentProcessor.validate_default text = verdict_too_long n) \/
  (PyStr.strip text <> "" /\ 50 <= n <= 10000 /\
   DocumentProcessor.validate_default text = verdict_valid n).
Proof.
  intros n.
  unfold DocumentProcessor.validate_default,
    DocumentProcessor.validate_text_content.
  destruct (PyStr.truthy text) eqn:Et; simpl.
  2:{ left. apply truthy_false_iff in Et. subst text. split; reflexivity. }
  destruct (PyStr.truthy (PyStr.strip text)) eqn:Es; simpl.
  2:{ left. apply truthy_false_iff in Es. split; [exact Es | reflexivity]. }
  assert (Hne : PyStr.strip text <> "").
  { intros H. rewrite H in Es. discriminate. }
  assert (Hpos : 0 < n).
  { assert (n <> 0) by (intros H; apply Hne, blank_iff_no_word; exact H).
    subst n. lia. }
  fold n.
  destruct (Z.ltb_spec n 50).
  - right; left. repeat split; try assumption.
  - destruct (n >? 10000) eqn:Eg.
    + right; right; left. repeat split; try assumption. lia.
    + right; right; right. repeat split; try assumption. lia.
Qed.

(** C5. With the default bounds the validator answers "empty" exactly
    for the texts that are blank after trimming, "too short" exactly for
    the other texts of fewer than 50 words, "too long" exactly for the
    texts of more than 10000 words, and otherwise accepts the text and
    returns its word count.  The validator is a function of its
    arguments alone: it neither reads nor changes the process state. *)
Theorem validate_text_content_default_spec (text : string) :
  let r := DocumentProcessor.validate_default text in
  let n := Z.of_nat (length (PyStr.split text)) in
  (r = verdict_empty <-> PyStr.strip text = "") /\
  (r = verdict_too_short n <-> PyStr.strip text <> "" /\ n < 50) /\
  (r = verdict_too_long n <-> 10000 < n) /\
  (r = verdict_valid n <-> PyStr.strip text <> "" /\ 50 <= n <= 10000).
Proof.
  intros r n. subst r.
  pose proof (blank_iff_no_word text) as Hblank. fold n in Hblank.
  destruct (validate_default_cases text)
    as [(Hs & Hr) | [(Hs & Hn & Hr) | [(Hs & Hn & Hr) | (Hs & Hn & Hr)]]];
    fold n in Hr; try fold n in Hn; rewrite Hr;
    try (assert (n = 0) by tauto);
    repeat split; intros; try tauto; try lia;
    match goal with
    | H : @eq DocumentProcessor.validation _ _ |- _ => verdict_clash H
    end.
Qed.

(** The boundary texts of the specification. *)
Example validate_49_words :
  DocumentProcessor.validate_default (words_text 49) = verdict_too_short 49.
Proof. vm_compute. reflexivity. Qed.

Example validate_50_words :
  DocumentProcessor.validate_default (words_text 50) = verdict_valid 50.
Proof. vm_compute. reflexivity. Qed.

Example validate_10000_words :
  DocumentProcessor.validate_default (words_text (Z.to_nat 10000)) = verdict_valid 10000.
Proof. vm_compute. reflexivity. Qed.

Example validate_10001_words :
  DocumentProcessor.validate_default (words_text (Z.to_nat 10001))
  = verdict_too_long 10001.
Proof. vm_compute. reflexivity. Qed.

Example validate_blank :
  DocumentProcessor.validate_default (String " " (String "009" (String "010" "")))
  = verdict_empty.
Proof. vm_compute. reflexivity. Qed.

(** ** Outcomes of the providers and of the manager *)

Lemma failed_with_error (o : outcome) (e : string) :
  success o = false -> error o = Some e -> error_iff_failed o.
Proof. intros Hs He. unfold error_iff_failed. rewrite Hs, He. split; eauto. Qed.

Lemma succeeded_without_error (o : outcome) :
  success o = true -> error o = None -> error_iff_failed o.
Proof.
  intros Hs He. unfold error_iff_failed. rewrite Hs, He.
  split; [intros [x Hx]; discriminate | discriminate].
Qed.

Ltac outcome_shape :=
  solve [ eapply failed_with_error; reflexivity
        | apply succeeded_without_error; reflexivity ].

(** The Cloud provider always returns a dict, of the right shape. *)
Lemma groq_generate_summary_shape (w : World) (p : GroqProvider)
    (text : string) (n : Z) (s : State) :
  exists o s', run (groq_generate_summary w p text n) s = (Ret o, s')
               /\ error_iff_failed o.
Proof.
  unfold groq_generate_summary, groq_failure. step_monad.
  destruct (groq_is_available p); simpl.
  - destruct (groq_client p) as [c|]; simpl.
    + destruct (groq_chat w _ _ _ _ _); simpl;
        eexists _, _; (split; [reflexivity | outcome_shape]).
    + eexists _, _; (split; [reflexivity | outcome_shape]).
  - eexists _, _; (split; [reflexivity | outcome_shape]).
Qed.

(** The Local provider always returns a dict, of the right shape. *)
Lemma ollama_generate_summary_shape (w : World) (p : OllamaProvider)
    (text : string) (n : Z) (s : State) :
  exists o s', run (ollama_generate_summary w p text n) s = (Ret o, s')
               /\ error_iff_failed o.
Proof.
  unfold ollama_generate_summary, ollama_is_available, ollama_failure.
  step_monad.
  destruct (ollama_tags w _ _) as [|code body]; simpl.
  { eexists _, _; (split; [reflexivity | outcome_shape]). }
  destruct (code =? 200)%Z; simpl.
  2:{ eexists _, _; (split; [reflexivity | outcome_shape]). }
  destruct body as [|names]; simpl.
  { eexists _, _; (split; [reflexivity | outcome_shape]). }
  destruct (bool_decide _); simpl.
  2:{ eexists _, _; (split; [reflexivity | outcome_shape]). }
  destruct (ollama_generate w _ _ _ _ _) as [|msg|code' body']; simpl;
    try (eexists _, _; (split; [reflexivity | outcome_shape])).
  destruct (code' =? 200)%Z; simpl;
    try (eexists _, _; (split; [reflexivity | outcome_shape])).
  destruct body'; simpl;
    eexists _, _; (split; [reflexivity | outcome_shape]).
Qed.

(** The constructor of the Cloud provider: it returns a provider unless
    the client library raises. *)
Lemma GroqProvider_init_cases (w : World) (model_name : string)
    (api_key : option string) (s : State) :
  (exists p, run (GroqProvider_init w model_name api_key) s = (Ret p, s)) \/
  (exists k msg, groq_ctor w k = CtorRaise msg /\
     run (GroqProvider_init w model_name api_key) s = (Raise msg, s)).
Proof.
  unfold GroqProvider_init. step_monad.
  destruct (if PyStr.truthy_opt api_key then api_key else getenv_GROQ_API_KEY w)
    as [k|]; [|left; eauto].
  destruct (PyStr.truthy k); [|left; eauto].
  destruct (groq_ctor w k) eqn:E; [left; eauto | left; eauto | right; eauto].
Qed.

(** C2. Every dict returned by [GroqProvider.generate_summary], by
    [OllamaProvider.generate_summary] and by
    [DualLLMManager.generate_summary] has the key ["error"] if and only
    if its ["success"] is false.  Both providers always return; the
    manager returns unless the construction of the Cloud client raises. *)
Theorem outcome_error_iff_failed (w : World) (s : State) (text : string) (n : Z) :
  (forall p : GroqProvider,
     exists o s', run (generate_summary w p text n) s = (Ret o, s')
                  /\ error_iff_failed o) /\
  (forall p : OllamaProvider,
     exists o s', run (generate_summary w p text n) s = (Ret o, s')
                  /\ error_iff_failed o) /\
  (forall (mgr : DualLLMManager) (label : string),
     match fst (run (manager_generate_summary w mgr label text n) s) with
     | Ret o => error_iff_failed o
     | Raise msg => exists k, groq_ctor w k = CtorRaise msg
     end).
Proof.
  split; [|split].
  - intros p. apply groq_generate_summary_shape.
  - intros p. apply ollama_generate_summary_shape.
  - intros mgr label.
    unfold manager_generate_summary, get_provider_instance.
    destruct (dict_get groq_models label) as [m|].
    + destruct (GroqProvider_init_cases w m (groq_api_key mgr) s)
        as [[p Hp] | (k & msg & Hk & Hp)];
        unfold run in *; unfold bind at 1 2; rewrite Hp; simpl.
      * destruct (groq_generate_summary_shape w p text n s)
          as (o & s' & Ho & Hshape).
        unfold run in Ho. rewrite Ho. exact Hshape.
      * eauto.
    + destruct (dict_get ollama_models label) as [m|]; step_monad.
      * match goal with
        | |- context [ollama_generate_summary w ?p text n s] =>
            destruct (ollama_generate_summary_shape w p text n s)
              as (o & s' & Ho & Hshape)
        end.
        unfold run in Ho. rewrite Ho. exact Hshape.
      * outcome_shape.
Qed.

(** ** The Cloud provider without a credential *)

(** [self.api_key] after construction: the key given, or the
    environment's when that one is absent or empty. *)
Lemma GroqProvider_init_key (w : World) (model_name : string)
    (api_key : option string) (s s' : State) (p : GroqProvider) :
  run (GroqProvider_init w model_name api_key) s = (Ret p, s') ->
  s' = s /\
  groq_model_name p = model_name /\
  groq_self_api_key p =
    (if PyStr.truthy_opt api_key then api_key else getenv_GROQ_API_KEY w) /\
  (forall c, groq_client p = Some c ->
     groq_self_api_key p = Some (client_api_key c)
     /\ PyStr.truthy (client_api_key c) = true).
Proof.
  unfold GroqProvider_init. step_monad.
  destruct (if PyStr.truthy_opt api_key then api_key else getenv_GROQ_API_KEY w)
    as [k|]; simpl.
  - destruct (PyStr.truthy k) eqn:Ek; simpl.
    + destruct (groq_ctor w k); simpl; intros H; inversion H; subst; simpl;
        (split; [reflexivity | split; [reflexivity | split; [reflexivity |]]]);
        intros c0 Hc0; inversion Hc0; subst; simpl;
        split; [reflexivity | exact Ek].
    + intros H; inversion H; subst; simpl.
      repeat split; intros; discriminate.
  - intros H; inversion H; subst; simpl.
    repeat split; intros; discriminate.
Qed.

(** C3, as the code has it.  When the key given to a Cloud provider is
    absent or empty and [GROQ_API_KEY] is absent or empty too, the
    provider is built without a client and is not available, and its
    [generate_summary] returns, for every text and target length, the
    failed dict with the error "API key not provided", without sending
    any request. *)
Theorem groq_generate_without_credential (w : World) (model_name : string)
    (api_key : option string) (text : string) (n : Z) (s s0 : State) :
  PyStr.truthy_opt api_key = false ->
  PyStr.truthy_opt (getenv_GROQ_API_KEY w) = false ->
  exists p,
    run (GroqProvider_init w model_name api_key) s = (Ret p, s) /\
    run (is_available w p) s0 = (Ret false, s0) /\
    exists s1,
      run (generate_summary w p text n) s0 =
        (Ret {| summary := "Groq API key not configured";
                success := false;
                response_time := 0;
                token_count := None;
                model := model_name;
                provider := "Groq (Cloud)";
                error := Some "API key not provided" |}, s1)
      /\ trace s1 = trace s0
      /\ issued (generate_summary w p text n) s0 = [].
Proof.
  intros Hkey Henv.
  assert (Hinit : exists p,
             run (GroqProvider_init w model_name api_key) s = (Ret p, s)
             /\ groq_model_name p = model_name /\ groq_client p = None).
  { unfold GroqProvider_init, run, ret. rewrite Hkey.
    destruct (getenv_GROQ_API_KEY w) as [k|]; simpl in Henv.
    - rewrite Henv. eexists. repeat split.
    - eexists. repeat split. }
  destruct Hinit as (p & Hinit & Hm & Hc). exists p.
  assert (Hav : groq_is_available p = false).
  { unfold groq_is_available. rewrite Hc. reflexivity. }
  split; [exact Hinit|]. split.
  - simpl. step_monad. rewrite Hav. reflexivity.
  - unfold issued. simpl. unfold groq_generate_summary. step_monad.
    rewrite Hav. simpl. rewrite Hm. eexists. split; [reflexivity|].
    simpl. split; [reflexivity|]. apply drop_all.
Qed.

Lemma groq_generate_without_credential_witness :
  PyStr.truthy_opt (Some "") = false /\
  PyStr.truthy_opt (getenv_GROQ_API_KEY world_offline) = false /\
  exists p,
    run (GroqProvider_init world_offline "llama3-8b-8192" (Some ""))
        (initial_state None) = (Ret p, initial_state None) /\
    run (is_available world_offline p) (initial_state None)
      = (Ret false, initial_state None) /\
    exists s1,
      run (generate_summary world_offline p "Some text." 150) (initial_state None) =
        (Ret {| summary := "Groq API key not configured";
                success := false;
                response_time := 0;
                token_count := None;
                model := "llama3-8b-8192";
                provider := "Groq (Cloud)";
                error := Some "API key not provided" |}, s1)
      /\ trace s1 = trace (initial_state None)
      /\ issued (generate_summary world_offline p "Some text." 150)
           (initial_state None) = [].
Proof.
  split; [reflexivity|]. split; [reflexivity|].
  exact (groq_generate_without_credential world_offline "llama3-8b-8192" (Some "")
           "Some text." 150 (initial_state None) (initial_state None)
           eq_refl eq_refl).
Defined.

(** C3 as stated fails.  With no credential configured (the key given is
    absent, or empty) but a key in [GROQ_API_KEY], the provider is
    available, sends its chat request under the key of the environment
    and succeeds. *)
Lemma groq_generate_without_credential_counterexample :
  PyStr.truthy_opt None = false /\
  PyStr.truthy_opt (Some "") = false /\
  (exists p o s1,
     run (GroqProvider_init world_env_key "llama3-8b-8192" None) (initial_state None)
       = (Ret p, initial_state None)
     /\ run (is_available world_env_key p) (initial_state None)
        = (Ret true, initial_state None)
     /\ run (generate_summary world_env_key p "Some text." 150) (initial_state None)
        = (Ret o, s1)
     /\ success o = true /\ error o = None
     /\ trace s1 = [GroqChat "gsk_env" "llama3-8b-8192"
                      (build_prompt "Some text." 150) 300]) /\
  (exists p o s1,
     run (GroqProvider_init world_env_key "llama3-8b-8192" (Some "")) (initial_state None)
       = (Ret p, initial_state None)
     /\ run (is_available world_env_key p) (initial_state None)
        = (Ret true, initial_state None)
     /\ run (generate_summary world_env_key p "Some text." 150) (initial_state None)
        = (Ret o, s1)
     /\ success o = true /\ error o = None
     /\ trace s1 = [GroqChat "gsk_env" "llama3-8b-8192"
                      (build_prompt "Some text." 150) 300]).
Proof.
  split; [reflexivity|]. split; [reflexivity|].
  split; eexists _, _, _; repeat split; vm_compute; reflexivity.
Qed.

(** The fallback of the constructor: a provider built without a key
    takes the credential of [GROQ_API_KEY] and sends its request under
    it. *)
Remark groq_env_fallback :
  let s := initial_state None in
  exists p s1,
    run (get_provider_instance world_env_key (llm_manager s) "Groq - Llama 3 8B") s
      = (Ret (Some (Groq p)), s)
    /\ groq_self_api_key p = Some "gsk_env"
    /\ run (generate_summary world_env_key p "Some text." 150) s
       = (Ret {| summary := "A cloud summary.";
                 success := true;
                 response_time := 1;
                 token_count := Some 40;
                 model := "llama3-8b-8192";
                 provider := "Groq (Cloud)";
                 error := None |}, s1)
    /\ trace s1 = [GroqChat "gsk_env" "llama3-8b-8192"
                     (build_prompt "Some text." 150) 300].
Proof. vm_compute. eexists _, _. repeat split. Qed.

(** ** Dicts in source order *)

Lemma dict_get_cons (d : list (string * string)) (k k' v : string) :
  dict_get ((k', v) :: d) k = if String.eqb k k' then Some v else dict_get d k.
Proof. reflexivity. Qed.

Lemma dict_keys_cons {V} (d : list (string * V)) (k : string) (v : V) :
  dict_keys ((k, v) :: d) = k :: dict_keys d.
Proof. reflexivity. Qed.

Lemma dict_get_Some_elem (d : list (string * string)) (k v : string) :
  dict_get d k = Some v -> (k, v) ∈ d.
Proof.
  induction d as [|[k' v'] d IH]; [discriminate|].
  rewrite dict_get_cons.
  destruct (String.eqb_spec k k') as [->|Hne].
  - intros H. inversion H; subst. apply list_elem_of_here.
  - intros H. apply list_elem_of_further, IH, H.
Qed.

Lemma dict_get_None_keys (d : list (string * string)) (k : string) :
  dict_get d k = None <-> k ∉ dict_keys d.
Proof.
  induction d as [|[k' v'] d IH].
  - split; [intros _ H; inversion H | reflexivity].
  - rewrite dict_get_cons, dict_keys_cons, not_elem_of_cons.
    destruct (String.eqb_spec k k') as [->|Hne].
    + split; [discriminate | intros [H _]; congruence].
    + rewrite IH. tauto.
Qed.

Lemma dict_get_elem_NoDup (d : list (string * string)) (k v : string) :
  NoDup (dict_keys d) -> (k, v) ∈ d -> dict_get d k = Some v.
Proof.
  induction d as [|[k' v'] d IH]; intros Hnd Hin.
  - inversion Hin.
  - rewrite dict_keys_cons in Hnd. rewrite dict_get_cons.
    apply NoDup_cons in Hnd as [Hnotin Hnd].
    apply elem_of_cons in Hin as [Heq | Hin].
    + inversion Heq; subst. rewrite String.eqb_refl. reflexivity.
    + destruct (String.eqb_spec k k') as [->|Hne].
      * exfalso. apply Hnotin.
        apply (list_elem_of_fmap_2 fst) in Hin. exact Hin.
      * apply IH; assumption.
Qed.

Lemma ollama_models_NoDup : NoDup (dict_keys ollama_models).
Proof. apply (bool_decide_unpack _). vm_compute. exact I. Qed.

Lemma groq_models_NoDup : NoDup (dict_keys groq_models).
Proof. apply (bool_decide_unpack _). vm_compute. exact I. Qed.

(** No label is in both catalogs. *)
Lemma catalogs_disjoint (label : string) :
  label ∈ dict_keys groq_models -> label ∈ dict_keys ollama_models -> False.
Proof.
  intros Hg Ho.
  assert (H : Forall (fun l => l ∉ dict_keys ollama_models) (dict_keys groq_models)).
  { apply (bool_decide_unpack _). vm_compute. exact I. }
  rewrite Forall_forall in H. exact (H label Hg Ho).
Qed.

(** ** Unknown labels *)

(** C7. For a label of neither catalog, [get_provider_instance] returns
    [None] and raises nothing; [DualLLMManager.generate_summary] turns
    that into the single failed dict "Provider ... not available", and
    the loop of the endpoint into one failed record with that error;
    none of the three sends a request or changes the state. *)
Theorem unknown_label_not_found (w : World) (mgr : DualLLMManager)
    (label text : string) (n : Z) (s : State) :
  label ∉ get_available_providers mgr ->
  run (get_provider_instance w mgr label) s = (Ret None, s) /\
  run (manager_generate_summary w mgr label text n) s
    = (Ret (not_found_outcome label), s) /\
  forall results,
    run (summarize_one w {| req_text := text; req_models := [label];
                            req_max_length := n |} results label) s
    = (Ret (results ++
            [ {| sr_model := label;
                 sr_summary := "Provider '" +:+ label +:+ "' not found";
                 sr_response_time := 0;
                 sr_token_count := None;
                 sr_success := false;
                 sr_error := Some ("Provider '" +:+ label +:+ "' not available") |} ]),
        s).
Proof.
  unfold get_available_providers. intros Hnot.
  apply not_elem_of_app in Hnot as [Hg Ho].
  apply dict_get_None_keys in Hg, Ho.
  assert (Hres : forall m s0, get_provider_instance w m label s0 = (Ret None, s0)).
  { intros m s0. unfold get_provider_instance. rewrite Hg, Ho. reflexivity. }
  assert (Hgen : forall m s0,
             manager_generate_summary w m label text n s0
             = (Ret (not_found_outcome label), s0)).
  { intros m s0. unfold manager_generate_summary, bind. rewrite Hres.
    reflexivity. }
  split; [apply Hres | split; [apply Hgen |]].
  intros results. unfold summarize_one. step_monad. rewrite Hgen. reflexivity.
Qed.

Lemma unknown_label_not_found_witness :
  ("GPT-4" ∉ get_available_providers (DualLLMManager_init None)) /\
  run (get_provider_instance world_online (DualLLMManager_init None) "GPT-4")
      (initial_state None) = (Ret None, initial_state None) /\
  run (manager_generate_summary world_online (DualLLMManager_init None)
         "GPT-4" "Some text." 150) (initial_state None)
    = (Ret (not_found_outcome "GPT-4"), initial_state None).
Proof.
  assert (H : "GPT-4" ∉ get_available_providers (DualLLMManager_init None)).
  { apply (bool_decide_unpack _). vm_compute. exact I. }
  split; [exact H|].
  destruct (unknown_label_not_found world_online (DualLLMManager_init None)
              "GPT-4" "Some text." 150 (initial_state None) H) as (H1 & H2 & _).
  split; [exact H1 | exact H2].
Defined.

(** ** Local providers and the probe *)

Lemma ollama_is_available_probe (w : World) (p : OllamaProvider) (s : State) :
  run (ollama_is_available w p) s
  = (Ret (probe_lists (ollama_tags w (length (trace s)) (base_url p +:+ "/api/tags"))
            (ollama_model_name p)),
     log (OllamaTags (base_url p +:+ "/api/tags")) s).
Proof.
  unfold ollama_is_available, probe_lists. step_monad.
  destruct (ollama_tags w _ _) as [|code body]; [reflexivity|].
  destruct (code =? 200)%Z, body; reflexivity.
Qed.

Lemma installed_labels_elem (names : list string) (label : string) :
  label ∈ installed_labels names <->
  exists model_name, dict_get ollama_models label = Some model_name
                     /\ model_name ∈ names.
Proof.
  unfold installed_labels, dict_keys. rewrite list_elem_of_fmap. split.
  - intros ([l m] & -> & Hin). apply list_elem_of_filter in Hin as [Hm Hin].
    exists m. split; [|exact Hm].
    apply dict_get_elem_NoDup; [apply ollama_models_NoDup | exact Hin].
  - intros (m & Hget & Hm). exists (label, m). split; [reflexivity|].
    apply list_elem_of_filter. split; [exact Hm|].
    apply dict_get_Some_elem, Hget.
Qed.

Lemma get_available_ollama_models_probe (w : World) (mgr : DualLLMManager)
    (s : State) :
  exists labels,
    run (_get_available_ollama_models w mgr) s
    = (Ret labels, log (OllamaTags (ollama_base_url mgr +:+ "/api/tags")) s)
    /\ labels `sublist_of` dict_keys ollama_models
    /\ forall label model_name,
         dict_get ollama_models label = Some model_name ->
         (label ∈ labels <->
          probe_lists (ollama_tags w (length (trace s))
                         (ollama_base_url mgr +:+ "/api/tags")) model_name = true).
Proof.
  unfold _get_available_ollama_models, probe_lists. step_monad.
  assert (Hnil : forall label model_name : string,
             label ∈ @nil string <-> false = true).
  { intros. split; [intros H; inversion H | discriminate]. }
  destruct (ollama_tags w _ _) as [|code body].
  { exists []. split; [reflexivity|]. split; [apply sublist_nil_l | auto]. }
  destruct (code =? 200)%Z; simpl.
  2:{ exists []. destruct body; (split; [reflexivity|]);
      (split; [apply sublist_nil_l | auto]). }
  destruct body as [|names].
  { exists []. split; [reflexivity|]. split; [apply sublist_nil_l | auto]. }
  exists (installed_labels names). split; [reflexivity|]. split.
  - unfold installed_labels, dict_keys. apply fmap_sublist, sublist_filter.
  - intros label m Hget. rewrite installed_labels_elem, bool_decide_eq_true.
    split.
    + intros (m' & Hget' & Hm'). congruence.
    + intros Hm. eauto.
Qed.

(** C6. When the probe does not report the model of a Local provider
    (it fails, or answers a list without that model), [is_available]
    returns false, [generate_summary] returns the failed dict "Model ...
    not available" after that single probe, and the label of the model
    is not in the list [get_enabled_providers] returns. *)
Theorem ollama_model_not_installed (w : World) (p : OllamaProvider)
    (text : string) (n : Z) (s : State) :
  probe_lists (ollama_tags w (length (trace s)) (base_url p +:+ "/api/tags"))
    (ollama_model_name p) = false ->
  run (is_available w p) s
    = (Ret false, log (OllamaTags (base_url p +:+ "/api/tags")) s) /\
  (exists s1,
     run (generate_summary w p text n) s
       = (Ret (unavailable_outcome (ollama_model_name p)), s1)
     /\ issued (generate_summary w p text n) s
        = [OllamaTags (base_url p +:+ "/api/tags")]) /\
  (forall (mgr : DualLLMManager) (label : string),
     ollama_base_url mgr = base_url p ->
     dict_get ollama_models label = Some (ollama_model_name p) ->
     exists enabled s2,
       run (get_enabled_providers w mgr) s = (Ret enabled, s2)
       /\ label ∉ enabled).
Proof.
  intros Hprobe. split; [|split].
  - simpl. rewrite ollama_is_available_probe, Hprobe. reflexivity.
  - unfold issued. simpl. unfold ollama_generate_summary.
    unfold run, bind at 1 2, time_time.
    match goal with
    | |- context [ollama_is_available w p ?s0] =>
        pose proof (ollama_is_available_probe w p s0) as Hav
    end.
    unfold run in Hav. simpl in Hav. rewrite Hprobe in Hav.
    unfold bind. rewrite Hav. simpl.
    eexists. split; [reflexivity|].
    rewrite drop_app_length. reflexivity.
  - intros mgr label Hurl Hget. unfold get_enabled_providers, run, bind.
    destruct (get_available_ollama_models_probe w mgr s)
      as (labels & Hrun & _ & Hiff).
    unfold run in Hrun. rewrite Hrun. simpl. eexists _, _.
    split; [reflexivity|].
    intros Hin. apply elem_of_app in Hin as [Hin | Hin].
    + destruct (PyStr.truthy_opt (groq_api_key mgr)); [|inversion Hin].
      apply (catalogs_disjoint label Hin).
      apply dec_stable. intros Hnot. apply dict_get_None_keys in Hnot.
      congruence.
    + apply (Hiff _ _ Hget) in Hin. rewrite Hurl in Hin. congruence.
Qed.

Lemma ollama_model_not_installed_witness :
  probe_lists
    (ollama_tags world_online (length (trace (initial_state None)))
       (base_url mistral_local +:+ "/api/tags"))
    (ollama_model_name mistral_local) = false /\
  run (is_available world_online mistral_local) (initial_state None)
    = (Ret false,
       log (OllamaTags (base_url mistral_local +:+ "/api/tags"))
         (initial_state None)) /\
  (exists s1,
     run (generate_summary world_online mistral_local "Some text." 150)
         (initial_state None)
       = (Ret (unavailable_outcome "mistral:7b"), s1)) /\
  (exists enabled s2,
     run (get_enabled_providers world_online (DualLLMManager_init None))
         (initial_state None) = (Ret enabled, s2)
     /\ "Ollama - Mistral 7B" ∉ enabled).
Proof.
  assert (H : probe_lists
                (ollama_tags world_online (length (trace (initial_state None)))
                   (base_url mistral_local +:+ "/api/tags"))
                (ollama_model_name mistral_local) = false)
    by (vm_compute; reflexivity).
  split; [exact H|].
  destruct (ollama_model_not_installed world_online mistral_local
              "Some text." 150 (initial_state None) H) as (H1 & H2 & H3).
  split; [exact H1|]. split.
  - destruct H2 as (s1 & H2 & _). exists s1. exact H2.
  - apply (H3 (DualLLMManager_init None) "Ollama - Mistral 7B");
      reflexivity.
Defined.

(** ** Enabled labels and the catalog *)

(** C10. Whatever the credential and whatever the probe answers,
    [get_enabled_providers] returns a list made of Cloud labels followed
    by Local labels, each part in catalog order, which is a subsequence
    of the list of [get_available_providers]; every enabled label is in
    the catalog. *)
Theorem enabled_sublist_of_available (w : World) (mgr : DualLLMManager)
    (s : State) :
  exists enabled cloud local s',
    run (get_enabled_providers w mgr) s = (Ret enabled, s')
    /\ enabled = cloud ++ local
    /\ cloud `sublist_of` dict_keys groq_models
    /\ local `sublist_of` dict_keys ollama_models
    /\ enabled `sublist_of` get_available_providers mgr
    /\ (forall label, label ∈ enabled -> label ∈ get_available_providers mgr).
Proof.
  destruct (get_available_ollama_models_probe w mgr s)
    as (labels & Hrun & Hsub & _).
  unfold get_enabled_providers, run, bind. unfold run in Hrun. rewrite Hrun.
  simpl.
  set (cloud := if PyStr.truthy_opt (groq_api_key mgr)
                then dict_keys groq_models else []).
  assert (Hcloud : cloud `sublist_of` dict_keys groq_models).
  { subst cloud. destruct (PyStr.truthy_opt _); [reflexivity|].
    apply sublist_nil_l. }
  assert (Hall : cloud ++ labels `sublist_of` get_available_providers mgr).
  { unfold get_available_providers. apply sublist_app; assumption. }
  exists (cloud ++ labels), cloud, labels. eexists.
  repeat split; try assumption; try reflexivity.
  intros label Hin. eapply elem_of_sublist; eassumption.
Qed.

(** ** The summarize endpoint *)

Lemma get_enabled_providers_returns (w : World) (s : State) :
  run (get_enabled_providers w (llm_manager s)) s
  = (Ret (enabled_at w s),
     log (OllamaTags (ollama_base_url (llm_manager s) +:+ "/api/tags")) s).
Proof.
  unfold enabled_at, get_enabled_providers, run, bind.
  destruct (get_available_ollama_models_probe w (llm_manager s) s)
    as (labels & Hrun & _).
  unfold run in Hrun. rewrite Hrun. reflexivity.
Qed.

(** One turn of the loop appends one record, for the label of the turn. *)
Lemma summarize_one_appends (w : World) (request : SummarizationRequest)
    (results : list SummaryResponse) (label : string) (s : State) :
  exists r s',
    run (summarize_one w request results label) s = (Ret (results ++ [r]), s')
    /\ sr_model r = label.
Proof.
  unfold summarize_one. step_monad.
  destruct (manager_generate_summary w _ _ _ _ s) as [[o|msg] s'];
    eexists _, _; split; reflexivity.
Qed.

(** The whole loop appends one record per label, in the order of the
    labels. *)
Lemma summarize_loop (w : World) (request : SummarizationRequest)
    (labels : list string) (acc : list SummaryResponse) (s : State) :
  exists rs s',
    run (for_each labels acc (summarize_one w request)) s = (Ret (acc ++ rs), s')
    /\ sr_model <$> rs = labels.
Proof.
  revert acc s. induction labels as [|label labels IH]; intros acc s.
  - exists [], s. rewrite app_nil_r. split; reflexivity.
  - destruct (summarize_one_appends w request acc label s)
      as (r & s1 & Hone & Hr).
    destruct (IH (acc ++ [r]) s1) as (rs & s2 & Hloop & Hrs).
    exists (r :: rs), s2. split.
    + unfold run in *. simpl. unfold bind. rewrite Hone, Hloop.
      rewrite <- app_assoc. reflexivity.
    + rewrite fmap_cons, Hr, Hrs. reflexivity.
Qed.

(** The four ways out of the handler, by its tests in their order. *)
Lemma generate_summaries_cases (w : World) (request : SummarizationRequest)
    (s : State) :
  (enabled_at w s = [] /\
   exists s', run (generate_summaries w request) s = (Ret abort_no_provider, s')) \/
  (enabled_at w s <> [] /\ PyStr.strip (req_text request) = "" /\
   exists s', run (generate_summaries w request) s = (Ret abort_no_text, s')) \/
  (enabled_at w s <> [] /\ PyStr.strip (req_text request) <> "" /\
   req_models request = [] /\
   exists s', run (generate_summaries w request) s = (Ret abort_no_model, s')) \/
  (enabled_at w s <> [] /\ PyStr.strip (req_text request) <> "" /\
   req_models request <> [] /\
   exists rs s',
     run (generate_summaries w request) s
     = (Ret (Aggregate (0 <? successful (compute_stats rs))%Z
               (aggregate_message (compute_stats rs)) rs (compute_stats rs)), s')
     /\ sr_model <$> rs = req_models request).
Proof.
  pose proof (get_enabled_providers_returns w s) as Hen. unfold run in Hen.
  unfold generate_summaries, run, try_except, bind, get_llm_manager, ret.
  cbv beta iota. rewrite Hen. cbv beta iota.
  destruct (enabled_at w s) as [|l0 enabled] eqn:Een.
  { left. split; [reflexivity|]. eexists. reflexivity. }
  right.
  destruct (PyStr.truthy (PyStr.strip (req_text request))) eqn:Et;
    cbv beta iota.
  2:{ left. apply truthy_false_iff in Et. split; [discriminate|].
      split; [exact Et|]. eexists. reflexivity. }
  assert (Hne : PyStr.strip (req_text request) <> "").
  { intros H. rewrite H in Et. discriminate. }
  right.
  destruct (summarize_loop w request (req_models request) []
              (log (OllamaTags (ollama_base_url (llm_manager s) +:+ "/api/tags")) s))
    as (rs & s' & Hloop & Hrs).
  unfold run in Hloop. rewrite app_nil_l in Hloop.
  destruct (req_models request) as [|m0 models] eqn:Em.
  { left. split; [discriminate|]. split; [exact Hne|]. split; [reflexivity|].
    eexists. reflexivity. }
  right. split; [discriminate|]. split; [exact Hne|]. split; [discriminate|].
  exists rs, s'. split; [|exact Hrs].
  change (negb true) with false. cbv beta iota. rewrite Hloop. reflexivity.
Qed.

(** The handler always returns a dict. *)
Lemma generate_summaries_returns (w : World) (request : SummarizationRequest)
    (s : State) :
  exists e s', run (generate_summaries w request) s = (Ret e, s').
Proof.
  destruct (generate_summaries_cases w request s)
    as [(_ & s' & H) | [(_ & _ & s' & H) | [(_ & _ & _ & s' & H)
       | (_ & _ & _ & rs & s' & H & _)]]]; eauto.
Qed.

(** ** Dispatch over a list of labels *)

(** [DualLLMManager.generate_summary] returns a dict unless the
    construction of the Cloud client raises. *)
Lemma manager_generate_summary_cases (w : World) (mgr : DualLLMManager)
    (label text : string) (n : Z) (s : State) :
  (exists o s', run (manager_generate_summary w mgr label text n) s = (Ret o, s')) \/
  (exists k msg s', groq_ctor w k = CtorRaise msg /\
     run (manager_generate_summary w mgr label text n) s = (Raise msg, s')).
Proof.
  unfold manager_generate_summary, get_provider_instance.
  destruct (dict_get groq_models label) as [m|].
  - destruct (GroqProvider_init_cases w m (groq_api_key mgr) s)
      as [[p Hp] | (k & msg & Hk & Hp)];
      unfold run, bind, ret in *; rewrite Hp; cbv beta iota.
    + destruct (groq_generate_summary_shape w p text n s) as (o & s' & Ho & _).
      left. exists o, s'. exact Ho.
    + right. exists k, msg, s. split; [exact Hk | reflexivity].
  - destruct (dict_get ollama_models label) as [m|]; step_monad.
    + match goal with
      | |- context [ollama_generate_summary w ?p text n s] =>
          destruct (ollama_generate_summary_shape w p text n s)
            as (o & s' & Ho & _)
      end.
      left. exists o, s'. exact Ho.
    + left. eexists _, _. reflexivity.
Qed.

Lemma dict_keys_dict_set {V} (d : list (string * V)) (k : string) (v : V) :
  dict_keys (dict_set d k v) = add_key (dict_keys d) k.
Proof.
  unfold add_key. induction d as [|[k' v'] d IH]; simpl.
  - reflexivity.
  - rewrite dict_keys_cons.
    destruct (String.eqb_spec k k') as [->|Hne].
    + rewrite bool_decide_eq_true_2 by apply list_elem_of_here. reflexivity.
    + rewrite dict_keys_cons, IH.
      destruct (bool_decide (k ∈ dict_keys d)) eqn:E.
      * apply bool_decide_eq_true in E.
        rewrite bool_decide_eq_true_2 by (apply list_elem_of_further, E).
        reflexivity.
      * apply bool_decide_eq_false in E.
        rewrite bool_decide_eq_false_2; [reflexivity|].
        rewrite not_elem_of_cons. split; assumption.
Qed.

(** The loop of [generate_multiple_summaries]: one key per distinct
    label. *)
Lemma generate_multiple_loop (w : World) (mgr : DualLLMManager)
    (labels : list string) (text : string) (n : Z)
    (acc : list (string * outcome)) (s : State) :
  match fst (run (for_each labels acc
                    (fun results provider_name =>
                       do r <- manager_generate_summary w mgr provider_name text n;
                       ret (dict_set results provider_name r))) s) with
  | Ret results => dict_keys results = fold_left add_key labels (dict_keys acc)
  | Raise msg => exists k, groq_ctor w k = CtorRaise msg
  end.
Proof.
  revert acc s. induction labels as [|label labels IH]; intros acc s.
  - reflexivity.
  - unfold run in *. simpl. unfold bind at 1 2.
    destruct (manager_generate_summary_cases w mgr label text n s)
      as [(o & s' & Ho) | (k & msg & s' & Hk & Ho)];
      unfold run in Ho; rewrite Ho; cbv beta iota.
    + unfold ret at 2. cbv beta iota.
      specialize (IH (dict_set acc label o) s').
      rewrite dict_keys_dict_set in IH. exact IH.
    + simpl. eauto.
Qed.

(** C1, as the code has it.  When some provider is enabled and the text
    is not blank, the handler returns one record per requested label, in
    the order of the request, a label given twice yielding two records.
    [generate_multiple_summaries] either raises, which it does only when
    the construction of the Groq client raises (an exception other than
    [ImportError]), or returns a dict: one entry per distinct label, in
    the order of first occurrence. *)
Theorem dispatch_one_outcome_per_label (w : World)
    (request : SummarizationRequest) (s : State) :
  (enabled_at w s <> [] ->
   PyStr.strip (req_text request) <> "" ->
   exists e s',
     run (generate_summaries w request) s = (Ret e, s')
     /\ sr_model <$> outcomes_of e = req_models request
     /\ length (outcomes_of e) = length (req_models request)) /\
  (forall mgr : DualLLMManager,
     match fst (run (generate_multiple_summaries w mgr (req_models request)
                       (req_text request) (req_max_length request)) s) with
     | Ret results => dict_keys results = first_occurrences (req_models request)
     | Raise msg => exists k, groq_ctor w k = CtorRaise msg
     end).
Proof.
  split.
  - intros Hen Htext.
    destruct (generate_summaries_cases w request s)
      as [(H & _) | [(_ & H & _) | [(_ & _ & Hm & s' & Hrun)
         | (_ & _ & _ & rs & s' & Hrun & Hrs)]]]; try contradiction.
    + exists abort_no_model, s'. rewrite Hm. repeat split. exact Hrun.
    + eexists _, s'. split; [exact Hrun|]. simpl. split; [exact Hrs|].
      rewrite <- Hrs, length_fmap. reflexivity.
  - intros mgr. apply generate_multiple_loop.
Qed.

Lemma dispatch_one_outcome_per_label_witness :
  enabled_at world_online (initial_state None) <> [] /\
  PyStr.strip (req_text two_same_labels) <> "" /\
  exists e s',
    run (generate_summaries world_online two_same_labels) (initial_state None)
      = (Ret e, s')
    /\ sr_model <$> outcomes_of e
       = ["Ollama - Llama 3 8B"; "Ollama - Llama 3 8B"]
    /\ length (outcomes_of e) = length (req_models two_same_labels).
Proof.
  assert (H1 : enabled_at world_online (initial_state None) <> [])
    by (vm_compute; discriminate).
  assert (H2 : PyStr.strip (req_text two_same_labels) <> "")
    by (vm_compute; discriminate).
  split; [exact H1|]. split; [exact H2|].
  exact (proj1 (dispatch_one_outcome_per_label world_online two_same_labels
                  (initial_state None)) H1 H2).
Defined.

(** C1 as stated fails.  With no provider enabled the handler returns
    no record for a valid text and one label; and
    [generate_multiple_summaries] keeps one entry for a label given
    twice. *)
Lemma dispatch_outcomes_counterexample :
  (DocumentProcessor.valid (DocumentProcessor.validate_default (req_text one_cloud_label))
   = true /\
   exists s',
     run (generate_summaries world_offline one_cloud_label) (initial_state None)
       = (Ret abort_no_provider, s')
     /\ length (outcomes_of abort_no_provider)
        <> length (req_models one_cloud_label)) /\
  (exists results s',
     run (generate_multiple_summaries world_online (DualLLMManager_init None)
            (req_models two_same_labels) (req_text two_same_labels) 150)
         (initial_state None) = (Ret results, s')
     /\ length results = 1%nat
     /\ length (req_models two_same_labels) = 2%nat).
Proof.
  split.
  - split; [vm_compute; reflexivity|].
    eexists. split; [vm_compute; reflexivity|]. simpl. discriminate.
  - eexists _, _. split; [vm_compute; reflexivity|].
    split; reflexivity.
Qed.

(** ** Statistics *)

Lemma succeeded_cons (r : SummaryResponse) (rs : list SummaryResponse) :
  succeeded (r :: rs) = if sr_success r then r :: succeeded rs else succeeded rs.
Proof.
  unfold succeeded. rewrite filter_cons.
  destruct (sr_success r); destruct (decide _); congruence.
Qed.

Lemma length_succeeded (rs : list SummaryResponse) :
  Z.of_nat (length (succeeded rs)) = count_successful rs.
Proof.
  induction rs as [|r rs IH]; [reflexivity|].
  rewrite succeeded_cons. simpl count_successful.
  destruct (sr_success r); simpl length; lia.
Qed.

Lemma count_successful_nonneg (rs : list SummaryResponse) :
  0 <= count_successful rs.
Proof. rewrite <- length_succeeded. lia. Qed.

Lemma fold_left_Zadd (xs : list Z) (a : Z) :
  fold_left Z.add xs a = a + fold_left Z.add xs 0.
Proof.
  revert a. induction xs as [|x xs IH]; intros a; cbn [fold_left]; [lia|].
  rewrite (IH (a + x)), (IH (0 + x)). lia.
Qed.

Lemma sum_tokens_succeeded (rs : list SummaryResponse) :
  py_sum_Z (map (fun r => or_0 (sr_token_count r)) (succeeded rs))
  = sum_tokens_successful rs.
Proof.
  unfold py_sum_Z. induction rs as [|r rs IH]; [reflexivity|].
  rewrite succeeded_cons. simpl sum_tokens_successful.
  destruct (sr_success r).
  - simpl. rewrite fold_left_Zadd, IH. unfold or_0. lia.
  - rewrite IH. lia.
Qed.

Lemma times_succeeded (rs : list SummaryResponse) :
  map sr_response_time (succeeded rs) = times_of_successful rs.
Proof.
  induction rs as [|r rs IH]; [reflexivity|].
  rewrite succeeded_cons. simpl times_of_successful.
  destruct (sr_success r); [simpl; rewrite IH|]; auto.
Qed.

(** The statistics of the code are those of the specification. *)
Lemma compute_stats_spec (rs : list SummaryResponse) :
  let st := compute_stats rs in
  total st = Z.of_nat (length rs) /\
  successful st = count_successful rs /\
  failed st = total st - successful st /\
  (count_successful rs = 0 -> avg_response_time st = AverageZero) /\
  (0 < count_successful rs ->
   avg_response_time st = AverageOf (times_of_successful rs)) /\
  total_tokens st = sum_tokens_successful rs.
Proof.
  unfold compute_stats. fold (succeeded rs). cbv zeta.
  cbn [total successful failed avg_response_time total_tokens].
  pose proof (length_succeeded rs) as Hlen.
  pose proof (times_succeeded rs) as Htimes.
  pose proof (sum_tokens_succeeded rs) as Htok.
  revert Hlen Htimes Htok.
  destruct (succeeded rs) as [|r0 rs0]; intros Hlen Htimes Htok.
  - repeat split; try assumption; try reflexivity.
    intros Hpos. simpl length in Hlen. lia.
  - repeat split; try assumption; try reflexivity.
    + intros H0. simpl length in Hlen. lia.
    + intros Hpos. rewrite Htimes. reflexivity.
Qed.

Lemma generate_summaries_aggregate (w : World) (request : SummarizationRequest)
    (s s' : State) (ok : bool) (msg : string) (rs : list SummaryResponse)
    (st : Stats) :
  run (generate_summaries w request) s = (Ret (Aggregate ok msg rs st), s') ->
  enabled_at w s <> [] /\ PyStr.strip (req_text request) <> "" /\
  req_models request <> [] /\
  sr_model <$> rs = req_models request /\
  st = compute_stats rs /\
  ok = (0 <? successful st)%Z /\
  msg = aggregate_message st.
Proof.
  intros Hrun.
  destruct (generate_summaries_cases w request s)
    as [(_ & s1 & H) | [(_ & _ & s1 & H) | [(_ & _ & _ & s1 & H)
       | (He & Ht & Hm & rs1 & s1 & H & Hrs)]]];
    rewrite H in Hrun; inversion Hrun; subst.
  repeat split; assumption.
Qed.

(** X26. In every dict with results the handler returns, the integer
    statistics are those of the outcome sequence: [total] is its length,
    [successful] the number of successful outcomes, [failed] is [total]
    minus [successful], and [total_tokens] is the sum of the token
    counts of the successful outcomes, an absent count adding 0.
    [avg_response_time] is the integer 0 when no outcome succeeded, and
    otherwise the float computed from the elapsed times of the
    successful outcomes only, taken in the order of the request. *)
Theorem aggregate_counts_and_tokens (w : World) (request : SummarizationRequest)
    (s s' : State) (ok : bool) (msg : string) (rs : list SummaryResponse)
    (st : Stats) :
  run (generate_summaries w request) s = (Ret (Aggregate ok msg rs st), s') ->
  total st = Z.of_nat (length rs) /\
  successful st = count_successful rs /\
  failed st = total st - successful st /\
  (count_successful rs = 0 -> avg_response_time st = AverageZero) /\
  (0 < count_successful rs ->
   avg_response_time st = AverageOf (times_of_successful rs)) /\
  total_tokens st = sum_tokens_successful rs.
Proof.
  intros Hrun.
  apply generate_summaries_aggregate in Hrun as (_ & _ & _ & _ & -> & _).
  apply compute_stats_spec.
Qed.

Lemma aggregate_counts_and_tokens_witness :
  exists rs s',
    run (generate_summaries world_online mixed_request) (initial_state None)
      = (Ret (Aggregate true "Generated 1 of 3 summaries successfully." rs
                {| total := 3; successful := 1; failed := 2;
                   avg_response_time := AverageOf [1%Q]; total_tokens := 0 |}), s')
    /\ 3 = Z.of_nat (length rs)
    /\ 1 = count_successful rs
    /\ AverageOf [1%Q] = AverageOf (times_of_successful rs)
    /\ 0 = sum_tokens_successful rs.
Proof.
  eexists _, _. split; [vm_compute; reflexivity|].
  match goal with
  | |- context [count_successful ?rs] =>
      destruct (aggregate_counts_and_tokens world_online mixed_request
                  (initial_state None) _ true
                  "Generated 1 of 3 summaries successfully." rs
                  {| total := 3; successful := 1; failed := 2;
                     avg_response_time := AverageOf [1%Q]; total_tokens := 0 |}
                  ltac:(vm_compute; reflexivity))
        as (H1 & H2 & _ & _ & H5 & H6)
  end.
  split; [exact H1|]. split; [exact H2|]. split; [|exact H6].
  apply H5. vm_compute. reflexivity.
Defined.

(** ** A dispatch that fails everywhere *)

Lemma all_failed_count (rs : list SummaryResponse) :
  Forall (fun r => sr_success r = false) rs -> succeeded rs = [].
Proof.
  induction 1 as [|r rs Hr _ IH]; [reflexivity|].
  rewrite succeeded_cons, Hr. exact IH.
Qed.

(** C4, as the code has it.  The handler always returns a dict; it
    gives up, with a single error and no results, exactly when no
    provider is enabled, the text is blank or no label is requested.
    Otherwise the dict has one record per requested label and the
    statistics; when every record is a failure its success flag is
    false, [successful] is 0, [failed] is the number of labels, and the
    average and the token total are 0. *)
Theorem failed_dispatch_is_aggregate (w : World)
    (request : SummarizationRequest) (s : State) :
  exists e s',
    run (generate_summaries w request) s = (Ret e, s') /\
    ((exists m, e = Abort m) <->
     (enabled_at w s = [] \/ PyStr.strip (req_text request) = ""
      \/ req_models request = [])) /\
    (forall ok msg rs st,
       e = Aggregate ok msg rs st ->
       sr_model <$> rs = req_models request /\
       st = compute_stats rs /\
       (Forall (fun r => sr_success r = false) rs ->
        ok = false /\
        total st = Z.of_nat (length (req_models request)) /\
        successful st = 0 /\
        failed st = total st /\
        avg_response_time st = AverageZero /\
        total_tokens st = 0)).
Proof.
  destruct (generate_summaries_cases w request s)
    as [(He & s' & H) | [(He & Ht & s' & H) | [(He & Ht & Hm & s' & H)
       | (He & Ht & Hm & rs & s' & H & Hrs)]]].
  1-3: eexists _, s'; (split; [exact H|]); split;
         [ split; [tauto | intros _; eexists; reflexivity]
         | intros ok msg rs st Habs; discriminate Habs ].
  eexists _, s'. split; [exact H|]. split.
  - split; [intros [m Hm']; discriminate Hm' | tauto].
  - intros ok msg rs' st Heq. inversion Heq; subst. clear Heq.
    split; [exact Hrs|]. split; [reflexivity|].
    intros Hall. apply all_failed_count in Hall.
    unfold compute_stats. fold (succeeded rs'). rewrite Hall.
    cbn [total successful failed avg_response_time total_tokens length map].
    rewrite <- Hrs, length_fmap.
    repeat split; try reflexivity. lia.
Qed.

(** C4 as stated fails.  With a valid text and two labels, and no
    provider enabled, the handler gives up although neither input test
    fails. *)
Lemma failed_dispatch_counterexample :
  PyStr.strip (req_text two_labels_offline) <> "" /\
  req_models two_labels_offline <> [] /\
  fst (run (generate_summaries world_offline two_labels_offline)
         (initial_state None))
  = Ret (Abort "No API key configured. Please set up your Groq API key first.").
Proof.
  split; [vm_compute; discriminate|].
  split; [discriminate|]. vm_compute. reflexivity.
Qed.

(** With a provider enabled, a dispatch of which every call fails has
    all its records and statistics. *)
Example failed_dispatch_all_records :
  exists rs s',
    run (generate_summaries world_failing mixed_request) (initial_state None)
      = (Ret (Aggregate false "Generated 0 of 3 summaries successfully." rs
                {| total := 3; successful := 0; failed := 3;
                   avg_response_time := AverageZero; total_tokens := 0 |}), s')
    /\ sr_model <$> rs = req_models mixed_request
    /\ sr_error <$> rs = [Some "Request timeout"; Some "API key not provided";
                           Some "Provider 'GPT-4' not available"].
Proof.
  eexists _, _. split; [vm_compute; reflexivity|].
  split; vm_compute; reflexivity.
Qed.

(** ** Replacing the credential *)

(** [generate_summary] of a Cloud provider neither reads nor writes the
    manager. *)
Lemma groq_generate_summary_frame (w : World) (p : GroqProvider)
    (text : string) (n : Z) (m : DualLLMManager) (s : State) :
  run (groq_generate_summary w p text n) (set_manager m s)
  = (fst (run (groq_generate_summary w p text n) s),
     set_manager m (snd (run (groq_generate_summary w p text n) s))).
Proof.
  unfold groq_generate_summary, groq_failure. step_monad.
  destruct (groq_is_available p); simpl; [|reflexivity].
  destruct (groq_client p) as [c|]; simpl; [|reflexivity].
  destruct (groq_chat w _ _ _ _ _); reflexivity.
Qed.

(** The requests of a Cloud provider: none, or one chat request under
    the key of its client. *)
Lemma groq_generate_summary_issued (w : World) (p : GroqProvider)
    (text : string) (n : Z) (s : State) :
  issued (groq_generate_summary w p text n) s = [] \/
  exists c, groq_client p = Some c /\
    issued (groq_generate_summary w p text n) s
    = [GroqChat (client_api_key c) (groq_model_name p)
         (build_prompt text n) (n * 2)].
Proof.
  unfold issued, groq_generate_summary, groq_failure. step_monad.
  destruct (groq_is_available p); simpl; [|left; apply drop_all].
  destruct (groq_client p) as [c|]; simpl; [|left; apply drop_all].
  right. exists c. split; [reflexivity|].
  destruct (groq_chat w _ _ _ _ _); simpl; apply drop_app_length.
Qed.

(** C9. A Cloud provider resolved by the manager holds the credential
    in force at that moment.  Replacing the credential of the manager
    afterwards leaves the provider as it is: its [generate_summary]
    returns the same dict and sends the same requests as without the
    replacement, each under the credential it was resolved with, while a
    provider resolved after the replacement holds the new credential. *)
Theorem credential_captured_at_resolution (w : World) (s s1 : State)
    (label : string) (p : GroqProvider) (new_key text : string) (n : Z) :
  run (get_provider_instance w (llm_manager s) label) s
    = (Ret (Some (Groq p)), s1) ->
  groq_self_api_key p = credential_in_force w (llm_manager s) /\
  run (generate_summary w p text n) (replace_credential new_key s1)
    = (fst (run (generate_summary w p text n) s1),
       replace_credential new_key (snd (run (generate_summary w p text n) s1))) /\
  issued (generate_summary w p text n) (replace_credential new_key s1)
    = issued (generate_summary w p text n) s1 /\
  (forall e, e ∈ issued (generate_summary w p text n) (replace_credential new_key s1) ->
     exists k, credential_in_force w (llm_manager s) = Some k
               /\ e = GroqChat k (groq_model_name p) (build_prompt text n) (n * 2)) /\
  (PyStr.truthy new_key = true ->
   forall p' s2,
     run (get_provider_instance w (llm_manager (replace_credential new_key s1)) label)
         (replace_credential new_key s1) = (Ret (Some (Groq p')), s2) ->
     groq_self_api_key p' = Some new_key).
Proof.
  intros Hres.
  assert (Hinit : exists m,
             run (GroqProvider_init w m (groq_api_key (llm_manager s))) s
             = (Ret p, s1)).
  { unfold get_provider_instance, run in *.
    destruct (dict_get groq_models label) as [m|].
    - exists m. unfold bind, ret in Hres.
      destruct (GroqProvider_init w m (groq_api_key (llm_manager s)) s)
        as [[p0|msg] s0]; inversion Hres; subst. reflexivity.
    - destruct (dict_get ollama_models label); inversion Hres. }
  destruct Hinit as (m & Hinit).
  apply GroqProvider_init_key in Hinit as (_ & _ & Hkey & Hclient).
  assert (Hframe :
    run (groq_generate_summary w p text n) (replace_credential new_key s1)
    = (fst (run (groq_generate_summary w p text n) s1),
       replace_credential new_key (snd (run (groq_generate_summary w p text n) s1)))).
  { unfold replace_credential at 1. rewrite groq_generate_summary_frame.
    f_equal. unfold replace_credential.
    assert (Hm : llm_manager (snd (run (groq_generate_summary w p text n) s1))
                 = llm_manager s1).
    { pose proof (groq_generate_summary_frame w p text n (llm_manager s1) s1) as F.
      assert (Hid : set_manager (llm_manager s1) s1 = s1) by (destruct s1; reflexivity).
      rewrite Hid in F. rewrite F at 1. reflexivity. }
    rewrite Hm. reflexivity. }
  assert (Hissued :
    issued (groq_generate_summary w p text n) (replace_credential new_key s1)
    = issued (groq_generate_summary w p text n) s1).
  { unfold issued. unfold run in Hframe. rewrite Hframe. reflexivity. }
  split; [exact Hkey|]. split; [exact Hframe|]. split; [exact Hissued|]. split.
  - intros e He. simpl generate_summary in He. rewrite Hissued in He.
    destruct (groq_generate_summary_issued w p text n s1) as [Hnil | (c & Hc & Hone)].
    + rewrite Hnil in He. inversion He.
    + rewrite Hone in He. apply list_elem_of_singleton in He. subst e.
      destruct (Hclient c Hc) as [Hk _].
      exists (client_api_key c). split; [|reflexivity].
      unfold credential_in_force. rewrite <- Hkey. exact Hk.
  - intros Htruthy p' s2 Hres'.
    unfold get_provider_instance, run in Hres'.
    destruct (dict_get groq_models label) as [m'|].
    + unfold bind, ret in Hres'.
      destruct (GroqProvider_init w m' _ _) as [[p0|msg] s0] eqn:E;
        inversion Hres'; subst.
      apply GroqProvider_init_key in E as (_ & _ & Hkey' & _).
      rewrite Hkey'. simpl. rewrite Htruthy. reflexivity.
    + destruct (dict_get ollama_models label); inversion Hres'.
Qed.

Lemma credential_captured_at_resolution_witness :
  let s := initial_state (Some "gsk_old") in
  run (get_provider_instance world_online (llm_manager s) "Groq - Llama 3 8B") s
    = (Ret (Some (Groq provider_old_key)), s) /\
  groq_api_key (llm_manager (replace_credential "gsk_new" s)) = Some "gsk_new" /\
  groq_self_api_key provider_old_key = Some "gsk_old" /\
  issued (generate_summary world_online provider_old_key "Some text." 150)
    (replace_credential "gsk_new" s)
  = issued (generate_summary world_online provider_old_key "Some text." 150) s /\
  issued (generate_summary world_online provider_old_key "Some text." 150)
    (replace_credential "gsk_new" s)
  = [GroqChat "gsk_old" "llama3-8b-8192" (build_prompt "Some text." 150) 300].
Proof.
  intros s.
  assert (Hres : run (get_provider_instance world_online (llm_manager s)
                        "Groq - Llama 3 8B") s
                 = (Ret (Some (Groq provider_old_key)), s)) by reflexivity.
  destruct (credential_captured_at_resolution world_online s s
              "Groq - Llama 3 8B" provider_old_key "gsk_new" "Some text." 150 Hres)
    as (H1 & _ & H3 & _ & _).
  split; [exact Hres|]. split; [reflexivity|]. split; [exact H1|].
  split; [exact H3|]. vm_compute. reflexivity.
Defined.

(** * Further properties of the code *)

(** ** The validator with any bounds *)

Lemma split_from_all_space (s cur : string) :
  PyStr.all_space s = true ->
  PyStr.split_from cur s = match cur with EmptyString => [] | _ => [cur] end.
Proof.
  revert cur. induction s as [|c s IH]; intros cur H; simpl in *.
  - reflexivity.
  - apply andb_true_iff in H as [Hc Hs]. rewrite Hc.
    destruct cur; rewrite (IH EmptyString Hs); reflexivity.
Qed.

Lemma split_lstrip (s : string) : PyStr.split (PyStr.lstrip s) = PyStr.split s.
Proof.
  unfold PyStr.split. induction s as [|c s IH]; simpl; [reflexivity|].
  destruct (PyStr.isspace c) eqn:E; [exact IH|]. simpl. rewrite E. reflexivity.
Qed.

Lemma split_from_cons (cur : string) (c : ascii) (s : string) :
  PyStr.split_from cur (String c s)
  = if PyStr.isspace c then
      match cur with
      | EmptyString => PyStr.split_from EmptyString s
      | _ => cur :: PyStr.split_from EmptyString s
      end
    else PyStr.split_from (cur +:+ String c EmptyString) s.
Proof. reflexivity. Qed.

Lemma split_from_rstrip (s cur : string) :
  PyStr.split_from cur (PyStr.rstrip s) = PyStr.split_from cur s.
Proof.
  revert cur. induction s as [|c s IH]; intros cur; [reflexivity|].
  simpl PyStr.rstrip.
  destruct (PyStr.rstrip s) as [|c' r] eqn:Er.
  - assert (Hs : PyStr.all_space s = true) by (apply rstrip_empty_iff, Er).
    destruct (PyStr.isspace c) eqn:Ec; simpl; rewrite Ec.
    + destruct cur; rewrite (split_from_all_space s EmptyString Hs); reflexivity.
    + rewrite (split_from_all_space s _ Hs).
      destruct (cur +:+ String c "") eqn:Eapp; [|reflexivity].
      destruct (append_char_nonempty _ _ Eapp).
  - rewrite (split_from_cons cur c (String c' r)), (split_from_cons cur c s).
    destruct (PyStr.isspace c).
    + destruct cur; rewrite IH; reflexivity.
    + apply IH.
Qed.

(** Trimming a text does not change its words. *)
Lemma split_strip (s : string) : PyStr.split (PyStr.strip s) = PyStr.split s.
Proof.
  unfold PyStr.strip, PyStr.split at 1. rewrite split_from_rstrip.
  apply split_lstrip.
Qed.

Lemma strip_strip_empty_iff (s : string) :
  PyStr.strip (PyStr.strip s) = "" <-> PyStr.strip s = "".
Proof. rewrite !blank_iff_no_word, split_strip. tauto. Qed.

Lemma validate_blank_test (text : string) :
  negb (PyStr.truthy text) || negb (PyStr.truthy (PyStr.strip text))
  = bool_decide (PyStr.strip text = "").
Proof.
  destruct (PyStr.truthy text) eqn:Et; simpl.
  - destruct (PyStr.truthy (PyStr.strip text)) eqn:Es; simpl; symmetry.
    + apply bool_decide_eq_false. intros H. rewrite H in Es. discriminate.
    + apply bool_decide_eq_true. apply truthy_false_iff, Es.
  - apply truthy_false_iff in Et. subst text. reflexivity.
Qed.

(** X1. The verdict of the validator does not depend on white space
    around the text: validating the trimmed text gives the same dict,
    for any bounds. *)
Theorem validate_text_content_strip (text : string) (min_words max_words : Z) :
  DocumentProcessor.validate_text_content (PyStr.strip text) min_words max_words
  = DocumentProcessor.validate_text_content text min_words max_words.
Proof.
  unfold DocumentProcessor.validate_text_content.
  rewrite !validate_blank_test, split_strip.
  rewrite (bool_decide_ext _ _ (strip_strip_empty_iff text)). reflexivity.
Qed.

(** X2. For any bounds, the validator accepts a text exactly when it is
    not blank and its number of words is between the bounds (both
    included); the word count it reports is always the number of words
    of the text, and it reports an error exactly when it rejects. *)
Theorem validate_text_content_bounds (text : string) (min_words max_words : Z) :
  let r := DocumentProcessor.validate_text_content text min_words max_words in
  let n := Z.of_nat (length (PyStr.split text)) in
  (DocumentProcessor.valid r = true <->
   PyStr.strip text <> "" /\ min_words <= n <= max_words) /\
  DocumentProcessor.word_count r = n /\
  (DocumentProcessor.error r = None <-> DocumentProcessor.valid r = true).
Proof.
  intros r n. subst r.
  unfold DocumentProcessor.validate_text_content.
  rewrite validate_blank_test. fold n.
  pose proof (blank_iff_no_word text) as Hblank. fold n in Hblank.
  destruct (bool_decide_reflect (PyStr.strip text = "")) as [Hb | Hb]; simpl.
  - repeat split; try discriminate; try tauto. symmetry. tauto.
  - destruct (Z.ltb_spec n min_words); simpl.
    + repeat split; try discriminate; try tauto. lia.
    + destruct (n >? max_words) eqn:Eg; simpl.
      * repeat split; try discriminate; try tauto. lia.
      * repeat split; try tauto; try lia.
Qed.

(** ** What every outcome of a provider satisfies *)

Lemma rstrip_cons (c : ascii) (s : string) :
  PyStr.rstrip (String c s)
  = match PyStr.rstrip s with
    | EmptyString => if PyStr.isspace c then EmptyString else String c EmptyString
    | r => String c r
    end.
Proof. reflexivity. Qed.

Lemma rstrip_rstrip (s : string) : PyStr.rstrip (PyStr.rstrip s) = PyStr.rstrip s.
Proof.
  induction s as [|c s IH]; [reflexivity|].
  rewrite (rstrip_cons c s).
  destruct (PyStr.rstrip s) as [|c' r] eqn:Er.
  - destruct (PyStr.isspace c) eqn:Ec; [reflexivity|].
    rewrite rstrip_cons. simpl. rewrite Ec. reflexivity.
  - rewrite (rstrip_cons c (String c' r)), IH. reflexivity.
Qed.

Lemma lstrip_rstrip_lstrip (s : string) :
  PyStr.lstrip (PyStr.rstrip (PyStr.lstrip s)) = PyStr.rstrip (PyStr.lstrip s).
Proof.
  induction s as [|c s IH]; [reflexivity|].
  change (PyStr.lstrip (String c s))
    with (if PyStr.isspace c then PyStr.lstrip s else String c s).
  destruct (PyStr.isspace c) eqn:Ec; [exact IH|].
  rewrite rstrip_cons.
  destruct (PyStr.rstrip s); rewrite ?Ec; simpl; rewrite Ec; reflexivity.
Qed.

(** Trimming twice is trimming once. *)
Lemma strip_strip (s : string) : PyStr.strip (PyStr.strip s) = PyStr.strip s.
Proof.
  unfold PyStr.strip. rewrite lstrip_rstrip_lstrip. apply rstrip_rstrip.
Qed.

Ltac outcome_facts_now :=
  unfold outcome_facts; cbn [response_time success token_count summary model
                              provider];
  repeat split; try discriminate; try reflexivity;
  try (intros _; apply strip_strip); auto.

Lemma groq_generate_summary_facts (w : World) (p : GroqProvider)
    (text : string) (n : Z) (s : State) :
  exists o s', run (groq_generate_summary w p text n) s = (Ret o, s')
               /\ outcome_facts w s (groq_model_name p) "Groq (Cloud)" o.
Proof.
  unfold groq_generate_summary, groq_failure. step_monad.
  destruct (groq_is_available p); simpl.
  - destruct (groq_client p) as [c|]; simpl.
    + destruct (groq_chat w _ _ _ _ _); simpl;
        eexists _, _; (split; [reflexivity | outcome_facts_now]).
    + eexists _, _; (split; [reflexivity | outcome_facts_now]).
  - eexists _, _; (split; [reflexivity | outcome_facts_now]).
Qed.

Lemma ollama_generate_summary_facts (w : World) (p : OllamaProvider)
    (text : string) (n : Z) (s : State) :
  exists o s', run (ollama_generate_summary w p text n) s = (Ret o, s')
               /\ outcome_facts w s (ollama_model_name p) "Ollama (Local)" o.
Proof.
  unfold ollama_generate_summary, ollama_is_available, ollama_failure.
  step_monad.
  destruct (ollama_tags w _ _) as [|code body]; simpl.
  { eexists _, _; (split; [reflexivity | outcome_facts_now]). }
  destruct (code =? 200)%Z; simpl.
  2:{ eexists _, _; (split; [reflexivity | outcome_facts_now]). }
  destruct body as [|names]; simpl.
  { eexists _, _; (split; [reflexivity | outcome_facts_now]). }
  destruct (bool_decide _); simpl.
  2:{ eexists _, _; (split; [reflexivity | outcome_facts_now]). }
  destruct (ollama_generate w _ _ _ _ _) as [|msg|code' body']; simpl;
    try (eexists _, _; (split; [reflexivity | outcome_facts_now])).
  destruct (code' =? 200)%Z; simpl;
    try (eexists _, _; (split; [reflexivity | outcome_facts_now])).
  destruct body'; simpl;
    eexists _, _; (split; [reflexivity | outcome_facts_now]).
Qed.

(** What [DualLLMManager.generate_summary] returns for a label: for a
    Cloud label the dict of the Cloud provider of the catalog's model,
    for a Local label that of the Local provider, else the dict "not
    found". *)
Lemma manager_generate_summary_facts (w : World) (mgr : DualLLMManager)
    (label text : string) (n : Z) (s : State) :
  match fst (run (manager_generate_summary w mgr label text n) s) with
  | Ret o =>
      match dict_get groq_models label, dict_get ollama_models label with
      | Some m, _ => outcome_facts w s m "Groq (Cloud)" o
      | None, Some m => outcome_facts w s m "Ollama (Local)" o
      | None, None => o = not_found_outcome label
      end
  | Raise msg => exists k, groq_ctor w k = CtorRaise msg
  end.
Proof.
  unfold manager_generate_summary, get_provider_instance.
  destruct (dict_get groq_models label) as [m|].
  - destruct (GroqProvider_init_cases w m (groq_api_key mgr) s)
      as [[p Hp] | (k & msg & Hk & Hp)];
      unfold run, bind, ret in *; rewrite Hp; cbv beta iota.
    + pose proof (GroqProvider_init_key w m (groq_api_key mgr) s s p Hp)
        as (_ & Hm & _).
      destruct (groq_generate_summary_facts w p text n s) as (o & s' & Ho & Hf).
      unfold run in Ho. simpl generate_summary. rewrite Ho. simpl.
      rewrite <- Hm. exact Hf.
    + simpl. eauto.
  - destruct (dict_get ollama_models label) as [m|]; step_monad.
    + match goal with
      | |- context [ollama_generate_summary w ?p text n s] =>
          destruct (ollama_generate_summary_facts w p text n s)
            as (o & s' & Ho & Hf)
      end.
      unfold run in Ho. rewrite Ho. exact Hf.
    + reflexivity.
Qed.

(** X3. A dict of [DualLLMManager.generate_summary] that reports a
    failure never has a token count, for any label, known or not. *)
Theorem failed_outcome_has_no_tokens (w : World) (mgr : DualLLMManager)
    (label text : string) (n : Z) (s : State) :
  match fst (run (manager_generate_summary w mgr label text n) s) with
  | Ret o => success o = false -> token_count o = None
  | Raise msg => exists k, groq_ctor w k = CtorRaise msg
  end.
Proof.
  pose proof (manager_generate_summary_facts w mgr label text n s) as H.
  destruct (fst (run (manager_generate_summary w mgr label text n) s))
    as [o|msg]; [|exact H].
  destruct (dict_get groq_models label), (dict_get ollama_models label);
    try (destruct H as (_ & H & _); exact H).
  subst o. reflexivity.
Qed.

(** X4. The summary of a successful dict of
    [DualLLMManager.generate_summary] is trimmed: trimming it again
    changes nothing. *)
Theorem successful_summary_is_trimmed (w : World) (mgr : DualLLMManager)
    (label text : string) (n : Z) (s : State) :
  match fst (run (manager_generate_summary w mgr label text n) s) with
  | Ret o => success o = true -> PyStr.strip (summary o) = summary o
  | Raise msg => exists k, groq_ctor w k = CtorRaise msg
  end.
Proof.
  pose proof (manager_generate_summary_facts w mgr label text n s) as H.
  destruct (fst (run (manager_generate_summary w mgr label text n) s))
    as [o|msg]; [|exact H].
  destruct (dict_get groq_models label), (dict_get ollama_models label);
    try (destruct H as (_ & _ & H & _); exact H).
  subst o. discriminate.
Qed.

(** X5. When the clock never goes back, the elapsed time of every dict
    of [DualLLMManager.generate_summary] is at least 0. *)
Theorem response_time_nonnegative (w : World) (mgr : DualLLMManager)
    (label text : string) (n : Z) (s : State) :
  monotone_clock w ->
  match fst (run (manager_generate_summary w mgr label text n) s) with
  | Ret o => (0 <= response_time o)%Q
  | Raise msg => exists k, groq_ctor w k = CtorRaise msg
  end.
Proof.
  intros Hmono.
  pose proof (manager_generate_summary_facts w mgr label text n s) as H.
  destruct (fst (run (manager_generate_summary w mgr label text n) s))
    as [o|msg]; [|exact H].
  assert (Hstep : (0 <= clock w (S (ticks s)) - clock w (ticks s))%Q).
  { pose proof (Hmono (ticks s) (S (ticks s)) ltac:(lia)) as Hle.
    unfold Qminus. apply (proj1 (Qle_minus_iff _ _)). exact Hle. }
  destruct (dict_get groq_models label), (dict_get ollama_models label);
    try (destruct H as ([H | H] & _); rewrite H; [apply Qle_refl | exact Hstep]).
  subst o. apply Qle_refl.
Qed.

Lemma clock_seconds_monotone (i j : nat) :
  (i <= j)%nat -> (clock_seconds i <= clock_seconds j)%Q.
Proof.
  intros H. unfold clock_seconds. rewrite <- Zle_Qle. lia.
Qed.

Lemma response_time_nonnegative_witness :
  monotone_clock world_online /\
  match fst (run (manager_generate_summary world_online (DualLLMManager_init None)
                    "Ollama - Llama 3 8B" "Some text." 150) (initial_state None)) with
  | Ret o => (0 <= response_time o)%Q
  | Raise msg => exists k, groq_ctor world_online k = CtorRaise msg
  end.
Proof.
  assert (H : monotone_clock world_online) by exact clock_seconds_monotone.
  split; [exact H|].
  exact (response_time_nonnegative world_online (DualLLMManager_init None)
           "Ollama - Llama 3 8B" "Some text." 150 (initial_state None) H).
Defined.

(** X6. The identity fields of a dict follow the catalog: for a Cloud
    label the model is the catalog's model identifier and the provider
    "Groq (Cloud)"; for a Local label the catalog's identifier and
    "Ollama (Local)". *)
Theorem outcome_identity_follows_catalog (w : World) (mgr : DualLLMManager)
    (label text : string) (n : Z) (s : State) (m : string) :
  dict_get groq_models label = Some m \/ dict_get ollama_models label = Some m ->
  match fst (run (manager_generate_summary w mgr label text n) s) with
  | Ret o =>
      model o = m /\
      provider o = (if bool_decide (label ∈ dict_keys groq_models)
                    then "Groq (Cloud)" else "Ollama (Local)")
  | Raise msg => exists k, groq_ctor w k = CtorRaise msg
  end.
Proof.
  intros Hlabel.
  pose proof (manager_generate_summary_facts w mgr label text n s) as H.
  destruct (fst (run (manager_generate_summary w mgr label text n) s))
    as [o|msg]; [|exact H].
  destruct (dict_get groq_models label) as [mg|] eqn:Eg.
  - destruct H as (_ & _ & _ & Hm & Hp).
    assert (Hin : label ∈ dict_keys groq_models).
    { apply dec_stable. intros Hn. apply dict_get_None_keys in Hn. congruence. }
    rewrite bool_decide_eq_true_2 by exact Hin.
    destruct Hlabel as [Hl | Hl].
    + split; [congruence | exact Hp].
    + exfalso. apply (catalogs_disjoint label Hin).
      apply dec_stable. intros Hn. apply dict_get_None_keys in Hn. congruence.
  - destruct Hlabel as [Hl | Hl]; [discriminate|]. rewrite Hl in H.
    destruct H as (_ & _ & _ & Hm & Hp).
    rewrite bool_decide_eq_false_2 by (apply dict_get_None_keys, Eg).
    split; assumption.
Qed.

Lemma outcome_identity_follows_catalog_witness :
  (dict_get groq_models "Ollama - Llama 3 8B" = Some "llama3:8b"
   \/ dict_get ollama_models "Ollama - Llama 3 8B" = Some "llama3:8b") /\
  match fst (run (manager_generate_summary world_online (DualLLMManager_init None)
                    "Ollama - Llama 3 8B" "Some text." 150) (initial_state None)) with
  | Ret o => model o = "llama3:8b" /\ provider o = "Ollama (Local)"
  | Raise msg => exists k, groq_ctor world_online k = CtorRaise msg
  end.
Proof.
  split; [right; reflexivity|].
  exact (outcome_identity_follows_catalog world_online (DualLLMManager_init None)
           "Ollama - Llama 3 8B" "Some text." 150 (initial_state None)
           "llama3:8b" (or_intror eq_refl)).
Defined.

(** ** The requests of a Local provider *)

(** X7. [OllamaProvider.generate_summary] always probes the service
    once, first, and posts a generation request only when that probe
    listed its model: these are all the requests it sends. *)
Theorem ollama_requests (w : World) (p : OllamaProvider) (text : string)
    (n : Z) (s : State) :
  issued (generate_summary w p text n) s
  = OllamaTags (base_url p +:+ "/api/tags")
    :: (if probe_lists (ollama_tags w (length (trace s)) (base_url p +:+ "/api/tags"))
             (ollama_model_name p)
        then [OllamaGenerate (base_url p +:+ "/api/generate") (ollama_model_name p)
                (build_prompt text n) (n * 2)]
        else []).
Proof.
  unfold issued. simpl generate_summary. unfold ollama_generate_summary.
  unfold run, bind at 1 2, time_time. cbv beta iota.
  match goal with
  | |- context [ollama_is_available w p ?s0] =>
      pose proof (ollama_is_available_probe w p s0) as Hav
  end.
  unfold run in Hav. simpl in Hav. unfold bind at 1. rewrite Hav.
  destruct (probe_lists _ _); cbv beta iota.
  - simpl negb. cbv iota. unfold ollama_failure. step_monad.
    destruct (ollama_generate w _ _ _ _ _) as [|msg|code body]; simpl;
      try (rewrite <- app_assoc; apply drop_app_length).
    destruct (code =? 200)%Z; [destruct body|]; simpl;
      rewrite <- app_assoc; apply drop_app_length.
  - simpl. apply drop_app_length.
Qed.

(** ** The handler, unfolded *)

(** The handler probes once, then takes the first of its four ways out;
    the loop runs from the state after the probe. *)
Lemma generate_summaries_unfold (w : World) (request : SummarizationRequest)
    (s : State) :
  run (generate_summaries w request) s
  = let s0 := log (OllamaTags (probe_url s)) s in
    match enabled_at w s with
    | [] => (Ret abort_no_provider, s0)
    | _ =>
        if negb (PyStr.truthy (PyStr.strip (req_text request))) then
          (Ret abort_no_text, s0)
        else
          match req_models request with
          | [] => (Ret abort_no_model, s0)
          | _ =>
              match run (for_each (req_models request) [] (summarize_one w request)) s0 with
              | (Ret rs, s') =>
                  (Ret (Aggregate (0 <? successful (compute_stats rs))%Z
                          (aggregate_message (compute_stats rs)) rs
                          (compute_stats rs)), s')
              | (Raise e, s') => (Ret (Abort ("Unexpected error: " +:+ e)), s')
              end
          end
    end.
Proof.
  pose proof (get_enabled_providers_returns w s) as Hen. unfold run in Hen.
  unfold generate_summaries, run, try_except, bind, get_llm_manager, ret,
    probe_url.
  cbv beta iota zeta. rewrite Hen. cbv beta iota.
  destruct (enabled_at w s) as [|l0 enabled]; [reflexivity|].
  destruct (negb (PyStr.truthy (PyStr.strip (req_text request))));
    [reflexivity|].
  destruct (req_models request) as [|m0 models] eqn:Em; [reflexivity|].
  rewrite <- Em.
  destruct (for_each (req_models request) [] (summarize_one w request) _)
    as [[rs|e] s']; reflexivity.
Qed.

(** X8. A dispatch that is refused (no provider enabled, blank text or
    no label) costs exactly the one probe of the local service: no
    provider is called, the manager and the clock are as before. *)
Theorem refused_dispatch_only_probes (w : World)
    (request : SummarizationRequest) (s : State) :
  enabled_at w s = [] \/ PyStr.strip (req_text request) = ""
  \/ req_models request = [] ->
  snd (run (generate_summaries w request) s) = log (OllamaTags (probe_url s)) s /\
  issued (generate_summaries w request) s = [OllamaTags (probe_url s)].
Proof.
  intros Hrefused.
  assert (H : snd (run (generate_summaries w request) s)
              = log (OllamaTags (probe_url s)) s).
  { rewrite generate_summaries_unfold. cbv zeta.
    destruct (enabled_at w s) as [|l0 enabled]; [reflexivity|].
    destruct (PyStr.truthy (PyStr.strip (req_text request))) eqn:Et;
      [|reflexivity].
    destruct (req_models request) as [|m0 models]; [reflexivity|].
    exfalso. destruct Hrefused as [H | [H | H]]; try discriminate.
    rewrite H in Et. discriminate. }
  split; [exact H|].
  unfold issued. unfold run in H. rewrite H. simpl. apply drop_app_length.
Qed.

Lemma refused_dispatch_only_probes_witness :
  (enabled_at world_online (initial_state None) = []
   \/ PyStr.strip "   " = ""
   \/ ["Ollama - Llama 3 8B"] = []) /\
  issued (generate_summaries world_online
            {| req_text := "   "; req_models := ["Ollama - Llama 3 8B"];
               req_max_length := 150 |}) (initial_state None)
  = [OllamaTags "http://localhost:11434/api/tags"].
Proof.
  assert (H : enabled_at world_online (initial_state None) = []
              \/ PyStr.strip "   " = ""
              \/ ["Ollama - Llama 3 8B"] = []) by (right; left; reflexivity).
  split; [exact H|].
  exact (proj2 (refused_dispatch_only_probes world_online
                  {| req_text := "   "; req_models := ["Ollama - Llama 3 8B"];
                     req_max_length := 150 |} (initial_state None) H)).
Defined.

(** ** The manager is never touched, and requests are bounded *)

Lemma within_refl (s : State) : within 0 s s.
Proof.
  split; [reflexivity|]. exists []. rewrite app_nil_r. split; [reflexivity|].
  simpl. lia.
Qed.

Lemma within_trans (k1 k2 : nat) (s1 s2 s3 : State) :
  within k1 s1 s2 -> within k2 s2 s3 -> within (k1 + k2) s1 s3.
Proof.
  intros [Hm1 (e1 & Ht1 & Hl1)] [Hm2 (e2 & Ht2 & Hl2)]. split.
  - congruence.
  - exists (e1 ++ e2). rewrite Ht2, Ht1, <- app_assoc. split; [reflexivity|].
    rewrite length_app. lia.
Qed.

Lemma within_mono (k1 k2 : nat) (s s' : State) :
  (k1 <= k2)%nat -> within k1 s s' -> within k2 s s'.
Proof.
  intros Hle [Hm (e & Ht & Hl)]. split; [exact Hm|].
  exists e. split; [exact Ht | lia].
Qed.

Ltac within_now :=
  split; [reflexivity|]; simpl;
  first [ exists []; split; [symmetry; apply app_nil_r | simpl; lia]
        | eexists [_]; split; [reflexivity | simpl; lia]
        | eexists [_; _]; split; [rewrite <- app_assoc; reflexivity | simpl; lia] ].

Lemma groq_generate_summary_within (w : World) (p : GroqProvider)
    (text : string) (n : Z) (s : State) :
  within 1 s (snd (run (groq_generate_summary w p text n) s)).
Proof.
  unfold groq_generate_summary, groq_failure. step_monad.
  destruct (groq_is_available p); simpl; [|within_now].
  destruct (groq_client p) as [c|]; simpl; [|within_now].
  destruct (groq_chat w _ _ _ _ _); simpl; within_now.
Qed.

Lemma ollama_generate_summary_within (w : World) (p : OllamaProvider)
    (text : string) (n : Z) (s : State) :
  within 2 s (snd (run (ollama_generate_summary w p text n) s)).
Proof.
  unfold ollama_generate_summary, ollama_is_available, ollama_failure.
  step_monad.
  destruct (ollama_tags w _ _) as [|code body]; simpl; [within_now|].
  destruct (code =? 200)%Z; simpl; [|within_now].
  destruct body as [|names]; simpl; [within_now|].
  destruct (bool_decide _); simpl; [|within_now].
  destruct (ollama_generate w _ _ _ _ _) as [|msg|code' body']; simpl;
    try within_now.
  destruct (code' =? 200)%Z; simpl; [destruct body'; simpl|]; within_now.
Qed.

(** One call of the manager: at most two requests, the manager
    untouched, and a coherent dict when it returns. *)
Lemma manager_generate_summary_run (w : World) (mgr : DualLLMManager)
    (label text : string) (n : Z) (s : State) :
  exists r s',
    run (manager_generate_summary w mgr label text n) s = (r, s')
    /\ within 2 s s'
    /\ match r with
       | Ret o => error_iff_failed o /\ (success o = false -> token_count o = None)
       | Raise _ => True
       end.
Proof.
  unfold manager_generate_summary, get_provider_instance.
  destruct (dict_get groq_models label) as [m|].
  - destruct (GroqProvider_init_cases w m (groq_api_key mgr) s)
      as [[p Hp] | (k & msg & Hk & Hp)];
      unfold run, bind, ret in *; rewrite Hp; cbv beta iota.
    + destruct (groq_generate_summary_shape w p text n s) as (o & s' & Ho & Hshape).
      destruct (groq_generate_summary_facts w p text n s)
        as (o' & s'' & Ho' & _ & Htok & _).
      pose proof (groq_generate_summary_within w p text n s) as Hw.
      unfold run in *. rewrite Ho in Ho'. inversion Ho'; subst o' s''.
      rewrite Ho in Hw. simpl in Hw.
      exists (Ret o), s'. simpl generate_summary. rewrite Ho.
      split; [reflexivity|]. split; [|split; assumption].
      apply (within_mono 1 2); [lia | exact Hw].
    + exists (Raise msg), s. split; [reflexivity|].
      split; [|exact I]. apply (within_mono 0 2); [lia | apply within_refl].
  - destruct (dict_get ollama_models label) as [m|].
    + set (p := {| ollama_model_name := m; base_url := ollama_base_url mgr |}).
      destruct (ollama_generate_summary_shape w p text n s) as (o & s' & Ho & Hshape).
      destruct (ollama_generate_summary_facts w p text n s)
        as (o' & s'' & Ho' & _ & Htok & _).
      pose proof (ollama_generate_summary_within w p text n s) as Hw.
      unfold run in *. rewrite Ho in Ho'. inversion Ho'; subst o' s''.
      rewrite Ho in Hw. simpl in Hw.
      exists (Ret o), s'. unfold bind, ret. simpl generate_summary. rewrite Ho.
      split; [reflexivity|]. split; [exact Hw | split; assumption].
    + eexists _, _. unfold run, bind, ret. split; [reflexivity|].
      split; [apply (within_mono 0 2); [lia | apply within_refl]|].
      split; [eapply failed_with_error; reflexivity | reflexivity].
Qed.

(** One turn of the loop of the handler. *)
Lemma summarize_one_run (w : World) (request : SummarizationRequest)
    (results : list SummaryResponse) (label : string) (s : State) :
  exists r s',
    run (summarize_one w request results label) s = (Ret (results ++ [r]), s')
    /\ sr_model r = label /\ record_ok r /\ within 2 s s'.
Proof.
  destruct (manager_generate_summary_run w (llm_manager s) label
              (req_text request) (req_max_length request) s)
    as (r & s' & Hrun & Hw & Hr).
  unfold summarize_one, run, try_except, bind, get_llm_manager, ret in *.
  cbv beta iota. rewrite Hrun. destruct r as [o|msg]; cbv beta iota.
  - eexists _, s'. split; [reflexivity|]. split; [reflexivity|].
    split; [|exact Hw]. destruct Hr as [Herr Htok].
    unfold record_ok, error_iff_failed in *. simpl.
    destruct (success o); simpl.
    + split; [|discriminate]. split; [intros [x Hx]; discriminate | discriminate].
    + split; [exact Herr | exact Htok].
  - eexists _, s'. split; [reflexivity|]. split; [reflexivity|].
    split; [|exact Hw]. unfold record_ok. simpl.
    split; [split; eauto | reflexivity].
Qed.

(** The loop of the handler over any labels. *)
Lemma summarize_loop_run (w : World) (request : SummarizationRequest)
    (labels : list string) (acc : list SummaryResponse) (s : State) :
  exists rs s',
    run (for_each labels acc (summarize_one w request)) s = (Ret (acc ++ rs), s')
    /\ sr_model <$> rs = labels
    /\ Forall record_ok rs
    /\ within (2 * length labels) s s'.
Proof.
  revert acc s. induction labels as [|label labels IH]; intros acc s.
  - exists [], s. rewrite app_nil_r. repeat split; try reflexivity.
    + constructor.
    + exists []. rewrite app_nil_r. split; [reflexivity | simpl; lia].
  - destruct (summarize_one_run w request acc label s)
      as (r & s1 & Hone & Hr & Hok & Hw1).
    destruct (IH (acc ++ [r]) s1) as (rs & s2 & Hloop & Hrs & Hall & Hw2).
    exists (r :: rs), s2. split; [|split; [|split]].
    + unfold run in *. simpl. unfold bind. rewrite Hone, Hloop.
      rewrite <- app_assoc. reflexivity.
    + rewrite fmap_cons, Hr, Hrs. reflexivity.
    + constructor; assumption.
    + apply (within_mono (2 + 2 * length labels)); [simpl; lia|].
      eapply within_trans; eassumption.
Qed.

Lemma generate_summaries_run (w : World) (request : SummarizationRequest)
    (s : State) :
  exists e s',
    run (generate_summaries w request) s = (Ret e, s')
    /\ Forall record_ok (outcomes_of e)
    /\ within (1 + 2 * length (req_models request)) s s'.
Proof.
  assert (Hprobe : forall k, within (1 + k) s (log (OllamaTags (probe_url s)) s)).
  { intros k. split; [reflexivity|]. eexists [_]. split; [reflexivity|].
    simpl. lia. }
  rewrite generate_summaries_unfold. cbv zeta.
  destruct (enabled_at w s) as [|l0 enabled].
  { eexists _, _. split; [reflexivity|]. split; [constructor | apply Hprobe]. }
  destruct (negb (PyStr.truthy (PyStr.strip (req_text request)))).
  { eexists _, _. split; [reflexivity|]. split; [constructor | apply Hprobe]. }
  destruct (summarize_loop_run w request (req_models request) []
              (log (OllamaTags (probe_url s)) s))
    as (rs & s' & Hloop & _ & Hall & Hw).
  rewrite app_nil_l in Hloop.
  destruct (req_models request) as [|m0 models] eqn:Em.
  { eexists _, _. split; [reflexivity|]. split; [constructor | apply Hprobe]. }
  rewrite Hloop. eexists _, s'. split; [reflexivity|]. split; [exact Hall|].
  eapply within_trans; [apply (Hprobe 0%nat) | exact Hw].
Qed.

(** X9. Every record the handler returns is coherent: it has an error
    exactly when it reports a failure, and a failure has no token
    count.  This holds also for the records made from an exception. *)
Theorem handler_records_coherent (w : World) (request : SummarizationRequest)
    (s : State) :
  exists e s',
    run (generate_summaries w request) s = (Ret e, s')
    /\ Forall (fun r => (is_Some (sr_error r) <-> sr_success r = false)
                        /\ (sr_success r = false -> sr_token_count r = None))
         (outcomes_of e).
Proof.
  destruct (generate_summaries_run w request s) as (e & s' & Hrun & Hall & _).
  exists e, s'. split; [exact Hrun | exact Hall].
Qed.

(** X10. The handler never changes the manager (so never the
    credential), only appends to the trace, and sends at most one
    request plus two per requested label. *)
Theorem handler_request_bound (w : World) (request : SummarizationRequest)
    (s : State) :
  let s' := snd (run (generate_summaries w request) s) in
  llm_manager s' = llm_manager s /\
  trace s' = trace s ++ issued (generate_summaries w request) s /\
  (length (issued (generate_summaries w request) s)
   <= 1 + 2 * length (req_models request))%nat.
Proof.
  destruct (generate_summaries_run w request s)
    as (e & s' & Hrun & _ & Hm & evs & Ht & Hl).
  unfold issued. unfold run in *. rewrite Hrun. simpl.
  rewrite Ht, drop_app_length. repeat split; assumption.
Qed.

(** ** Configuring the credential *)

Lemma enabled_at_eq (w : World) (s : State) :
  enabled_at w s
  = (if PyStr.truthy_opt (groq_api_key (llm_manager s))
     then dict_keys groq_models else [])
    ++ local_enabled_at w s.
Proof.
  unfold enabled_at, local_enabled_at, probe_url, get_enabled_providers,
    _get_available_ollama_models. step_monad.
  destruct (ollama_tags w _ _) as [|code body]; [reflexivity|].
  destruct (code =? 200)%Z; [|destruct body; reflexivity].
  destruct body; reflexivity.
Qed.

Lemma local_enabled_at_sublist (w : World) (s : State) :
  local_enabled_at w s `sublist_of` dict_keys ollama_models.
Proof.
  unfold local_enabled_at.
  destruct (ollama_tags w _ _) as [|code body]; [apply sublist_nil_l|].
  destruct body as [|ms]; [apply sublist_nil_l|].
  destruct (code =? 200)%Z; [|apply sublist_nil_l].
  unfold installed_labels, dict_keys. apply fmap_sublist, sublist_filter.
Qed.

Lemma filter_Groq_local (local : list string) :
  local `sublist_of` dict_keys ollama_models ->
  List.filter (startswith "Groq") local = [].
Proof.
  intros Hsub.
  assert (Hcat : Forall (fun l => startswith "Groq" l = false)
                   (dict_keys ollama_models)).
  { apply (bool_decide_unpack _). vm_compute. exact I. }
  rewrite Forall_forall in Hcat.
  induction local as [|l local IH]; [reflexivity|].
  simpl. rewrite (Hcat l).
  - apply IH. etrans; [|exact Hsub]. apply sublist_cons_r. left. reflexivity.
  - eapply elem_of_sublist; [|exact Hsub]. apply list_elem_of_here.
Qed.

Lemma filter_Groq_enabled (local : list string) :
  local `sublist_of` dict_keys ollama_models ->
  List.filter (startswith "Groq") (dict_keys groq_models ++ local)
  = dict_keys groq_models.
Proof.
  intros Hsub. rewrite List.filter_app, (filter_Groq_local local Hsub).
  rewrite app_nil_r. reflexivity.
Qed.

Lemma configure_report_with_key (w : World) (api_key_source : string) (s : State) :
  PyStr.truthy_opt (groq_api_key (llm_manager s)) = true ->
  run (configure_report w api_key_source) s
  = (Ret (configured_response api_key_source (local_enabled_at w s)),
     log (OllamaTags (probe_url s)) s).
Proof.
  intros Hkey.
  pose proof (get_enabled_providers_returns w s) as Hen. unfold run in Hen.
  unfold configure_report, run, bind, get_llm_manager, ret. cbv beta iota.
  rewrite Hen. cbv beta iota. rewrite enabled_at_eq, Hkey.
  rewrite (filter_Groq_enabled _ (local_enabled_at_sublist w s)).
  reflexivity.
Qed.

Lemma configure_report_without_key (w : World) (api_key_source : string)
    (s : State) :
  PyStr.truthy_opt (groq_api_key (llm_manager s)) = false ->
  run (configure_report w api_key_source) s
  = (Ret (match local_enabled_at w s with
          | [] =>
              {| cfg_success := false;
                 cfg_message := "❌ Invalid API key. Please check and try again.";
                 cfg_models := [] |}
          | local =>
              {| cfg_success := true;
                 cfg_message :=
                   "✅ API key configured (" +:+ api_key_source
                   +:+ ")! Note: Groq models may take a moment to become available.";
                 cfg_models := local |}
          end),
     log (OllamaTags (probe_url s)) s).
Proof.
  intros Hkey.
  pose proof (get_enabled_providers_returns w s) as Hen. unfold run in Hen.
  unfold configure_report, run, bind, get_llm_manager, ret. cbv beta iota.
  rewrite Hen. cbv beta iota. rewrite enabled_at_eq, Hkey, app_nil_l.
  pose proof (filter_Groq_local _ (local_enabled_at_sublist w s)) as Hf.
  destruct (local_enabled_at w s) as [|l0 local]; [reflexivity|].
  rewrite Hf. reflexivity.
Qed.

(** X11. [configure_api_key] stores any non-empty key without checking
    it: the reply is a success announcing the 7 Cloud models, the
    manager holds the key, and the only request sent is the probe of
    the local service (none goes to the cloud). *)
Theorem configure_accepts_any_key (w : World) (api_key : string) (s : State) :
  api_key <> "use_env_key" ->
  PyStr.truthy api_key = true ->
  run (configure_api_key w api_key) s
  = (Ret (configured_response "user input" (local_enabled_at w s)),
     log (OllamaTags (probe_url s)) (replace_credential api_key s)).
Proof.
  intros Hne Htruthy.
  unfold configure_api_key, run, try_except.
  rewrite (proj2 (String.eqb_neq _ _) Hne).
  unfold bind at 1, llm_manager_update. cbv beta iota.
  pose proof (configure_report_with_key w "user input"
                (replace_credential api_key s)) as H.
  unfold run in H. rewrite H; [reflexivity|]. simpl. exact Htruthy.
Qed.

Lemma configure_accepts_any_key_witness :
  "not-a-real-key" <> "use_env_key" /\
  PyStr.truthy "not-a-real-key" = true /\
  run (configure_api_key world_offline "not-a-real-key") (initial_state None)
  = (Ret {| cfg_success := true;
            cfg_message := "✅ API key configured (user input)! 7 Groq models available.";
            cfg_models := dict_keys groq_models |},
     log (OllamaTags "http://localhost:11434/api/tags")
       (replace_credential "not-a-real-key" (initial_state None))).
Proof.
  assert (H1 : "not-a-real-key" <> "use_env_key") by discriminate.
  split; [exact H1|]. split; [reflexivity|].
  rewrite (configure_accepts_any_key world_offline "not-a-real-key"
             (initial_state None) H1 eq_refl).
  vm_compute. reflexivity.
Defined.

(** X12. Submitting the empty key erases the credential of the manager.
    The reply is "Invalid API key" when no local model is installed, and
    otherwise a success listing the local labels only. *)
Theorem configure_empty_key (w : World) (s : State) :
  let s' := snd (run (configure_api_key w "") s) in
  groq_api_key (llm_manager s') = Some "" /\
  enabled_at w (replace_credential "" s) = local_enabled_at w s /\
  fst (run (configure_api_key w "") s)
  = Ret (match local_enabled_at w s with
         | [] =>
             {| cfg_success := false;
                cfg_message := "❌ Invalid API key. Please check and try again.";
                cfg_models := [] |}
         | local =>
             {| cfg_success := true;
                cfg_message :=
                  "✅ API key configured (user input)! Note: Groq models may take a moment to become available.";
                cfg_models := local |}
         end).
Proof.
  pose proof (configure_report_without_key w "user input"
                (replace_credential "" s) eq_refl) as H.
  assert (Hrun : run (configure_api_key w "") s
                 = run (configure_report w "user input") (replace_credential "" s)).
  { unfold configure_api_key, run, try_except.
    change (String.eqb "" "use_env_key") with false. cbv iota.
    unfold bind at 1, llm_manager_update. cbv beta iota.
    unfold run in H. rewrite H. reflexivity. }
  rewrite Hrun, H. cbv zeta. simpl fst. simpl snd.
  split; [reflexivity|]. split; [|reflexivity].
  rewrite enabled_at_eq. reflexivity.
Qed.


(** ** The status of the local service *)

(** X16. [get_ollama_status], a probe of [is_available] and the probe
    of the enabled labels agree when they get the same reply.  If the
    status is available, with models [ms], its count is the length of
    [ms], a Local provider is available exactly when its model is in
    [ms], and the enabled Local labels are those of the catalog whose
    model is in [ms].  If it is not available, no Local provider is
    available and no Local label is enabled. *)
Theorem ollama_status_agrees (w : World) (errors : ProbeErrors)
    (mgr : DualLLMManager) (s : State) :
  exists st,
    run (get_ollama_status w errors mgr) s
    = (Ret st, log (OllamaTags (ollama_base_url mgr +:+ "/api/tags")) s) /\
    forall p : OllamaProvider,
      base_url p = ollama_base_url mgr ->
      match st with
      | StatusAvailable model_count ms =>
          model_count = Z.of_nat (length ms) /\
          fst (run (is_available w p) s)
          = Ret (bool_decide (ollama_model_name p ∈ ms)) /\
          fst (run (_get_available_ollama_models w mgr) s)
          = Ret (installed_labels ms)
      | StatusUnavailable _ =>
          fst (run (is_available w p) s) = Ret false /\
          fst (run (_get_available_ollama_models w mgr) s) = Ret []
      end.
Proof.
  unfold get_ollama_status, _get_available_ollama_models. simpl is_available.
  unfold ollama_is_available. step_monad.
  destruct (ollama_tags w (length (trace s)) (ollama_base_url mgr +:+ "/api/tags"))
    as [|code body] eqn:E.
  - eexists. split; [reflexivity|]. intros p Hp. rewrite Hp, E. split; reflexivity.
  - destruct (code =? 200)%Z eqn:Ec.
    + destruct body as [|ms]; (eexists; split; [reflexivity|]);
        intros p Hp; rewrite Hp, E, Ec; repeat split; reflexivity.
    + eexists. split; [reflexivity|]. intros p Hp. rewrite Hp, E, Ec.
      split; reflexivity.
Qed.

(** ** The flag of the envelope and distinct labels *)

Lemma count_successful_pos_iff (rs : list SummaryResponse) :
  0 < count_successful rs <-> Exists (fun r => sr_success r = true) rs.
Proof.
  induction rs as [|r rs IH]; simpl.
  - split; [lia | intros H; inversion H].
  - rewrite Exists_cons. pose proof (count_successful_nonneg rs).
    destruct (sr_success r); split; try lia; try tauto.
    + intros [H' | H']; [discriminate | tauto].
Qed.

(** X17. The ["success"] of a dict with results is true exactly when at
    least one of its records is a success. *)
Theorem envelope_success_iff_some_record (w : World)
    (request : SummarizationRequest) (s s' : State) (ok : bool) (msg : string)
    (rs : list SummaryResponse) (st : Stats) :
  run (generate_summaries w request) s = (Ret (Aggregate ok msg rs st), s') ->
  (ok = true <-> Exists (fun r => sr_success r = true) rs).
Proof.
  intros Hrun.
  apply generate_summaries_aggregate in Hrun as (_ & _ & _ & _ & -> & -> & _).
  destruct (compute_stats_spec rs) as (_ & Hs & _). rewrite Hs.
  rewrite <- count_successful_pos_iff. apply Z.ltb_lt.
Qed.

Lemma envelope_success_iff_some_record_witness :
  exists rs st s',
    run (generate_summaries world_online mixed_request) (initial_state None)
    = (Ret (Aggregate true "Generated 1 of 3 summaries successfully." rs st), s')
    /\ (true = true <-> Exists (fun r => sr_success r = true) rs).
Proof.
  eexists _, _, _. split; [vm_compute; reflexivity|].
  match goal with
  | |- _ <-> Exists _ ?rs =>
      exact (envelope_success_iff_some_record world_online mixed_request
               (initial_state None) _ true _ rs _ ltac:(vm_compute; reflexivity))
  end.
Defined.

Lemma fold_add_key_NoDup (labels acc : list string) :
  NoDup (acc ++ labels) -> fold_left add_key labels acc = acc ++ labels.
Proof.
  revert acc. induction labels as [|l labels IH]; intros acc Hnd; simpl.
  - rewrite app_nil_r. reflexivity.
  - assert (Hl : l ∉ acc).
    { apply NoDup_app in Hnd as (_ & Hdis & _). intros Hin.
      apply (Hdis l Hin). apply list_elem_of_here. }
    unfold add_key at 2. rewrite bool_decide_eq_false_2 by exact Hl.
    rewrite IH; rewrite <- app_assoc; [reflexivity | exact Hnd].
Qed.

(** X18. For labels that are all different,
    [generate_multiple_summaries] returns a dict whose keys are the
    labels, in the order of the request, one entry for each. *)
Theorem generate_multiple_summaries_distinct (w : World) (mgr : DualLLMManager)
    (labels : list string) (text : string) (n : Z) (s : State) :
  NoDup labels ->
  match fst (run (generate_multiple_summaries w mgr labels text n) s) with
  | Ret results => dict_keys results = labels /\ length results = length labels
  | Raise msg => exists k, groq_ctor w k = CtorRaise msg
  end.
Proof.
  intros Hnd.
  pose proof (generate_multiple_loop w mgr labels text n [] s) as H.
  unfold generate_multiple_summaries.
  destruct (fst (run (for_each labels [] _) s)) as [results|msg]; [|exact H].
  change (dict_keys (@nil (string * outcome))) with (@nil string) in H.
  rewrite (fold_add_key_NoDup labels [] Hnd) in H. simpl in H.
  split; [exact H|]. rewrite <- H. unfold dict_keys. rewrite length_fmap.
  reflexivity.
Qed.

Lemma generate_multiple_summaries_distinct_witness :
  NoDup ["Ollama - Llama 3 8B"; "Groq - Llama 3 8B"; "GPT-4"] /\
  match fst (run (generate_multiple_summaries world_online (DualLLMManager_init None)
                    ["Ollama - Llama 3 8B"; "Groq - Llama 3 8B"; "GPT-4"]
                    "Some text." 150) (initial_state None)) with
  | Ret results =>
      dict_keys results = ["Ollama - Llama 3 8B"; "Groq - Llama 3 8B"; "GPT-4"]
      /\ length results = 3%nat
  | Raise msg => exists k, groq_ctor world_online k = CtorRaise msg
  end.
Proof.
  assert (H : NoDup ["Ollama - Llama 3 8B"; "Groq - Llama 3 8B"; "GPT-4"]).
  { apply (bool_decide_unpack _). vm_compute. exact I. }
  split; [exact H|].
  exact (generate_multiple_summaries_distinct world_online (DualLLMManager_init None)
           ["Ollama - Llama 3 8B"; "Groq - Llama 3 8B"; "GPT-4"]
           "Some text." 150 (initial_state None) H).
Defined.

(** ** Extraction of PDF text *)

Lemma length_append (a b : string) :
  String.length (a +:+ b) = (String.length a + String.length b)%nat.
Proof. induction a as [|c a IH]; simpl; [reflexivity | rewrite IH; reflexivity]. Qed.

Lemma length_str_take (n : nat) (s : string) :
  (String.length (str_take n s) <= n)%nat.
Proof.
  revert s. induction n as [|n IH]; intros s; simpl; [lia|].
  destruct s as [|c s]; simpl; [lia|]. specialize (IH s). lia.
Qed.

(** The two shapes of the dict of [extract_text_from_pdf]. *)
Lemma extract_text_from_pdf_facts (lib : Libraries) (file : pdf_file) :
  match extract_text_from_pdf lib file with
  | Extracted text md =>
      PyStr.strip text = text /\ text <> "" /\
      1 <= md_word_count md /\
      md_word_count md = Z.of_nat (length (PyStr.split text)) /\
      md_char_count md = Z.of_nat (String.length text) /\
      md_file_size md = pdf_size file /\
      md_filename md = match file with
                       | FileObject (Some name) _ _ => name
                       | _ => "uploaded_document.pdf"
                       end /\
      exists pages, PdfReader lib (pdf_read file) = PdfPages pages
                    /\ md_page_count md = Z.of_nat (length pages)
  | NotExtracted e =>
      e = "No text content found in PDF"
      \/ exists msg, e = "Error processing PDF: " +:+ msg
  end.
Proof.
  unfold extract_text_from_pdf.
  destruct (PdfReader lib (pdf_read file)) as [msg|pages] eqn:Er; [right; eauto|].
  destruct (extract_pages pages "") as [t|msg]; [|right; eauto].
  destruct (PyStr.truthy (PyStr.strip t)) eqn:Et; simpl; [|left; reflexivity].
  assert (Hne : PyStr.strip t <> "").
  { intros H. rewrite H in Et. discriminate. }
  split; [apply strip_strip|]. split; [exact Hne|].
  split; [|split; [reflexivity|split; [reflexivity|split; [reflexivity|
           split; [reflexivity|eauto]]]]].
  assert (Hw : Z.of_nat (length (PyStr.split (PyStr.strip t))) <> 0).
  { intros H. apply blank_iff_no_word in H. apply Hne.
    apply strip_strip_empty_iff. exact H. }
  lia.
Qed.

(** X19. A text [extract_text_from_pdf] returns is trimmed and not
    empty, and its metadata are those of that text and of the file: at
    least one word, the number of words and of characters of the text,
    the number of pages the reader found in what [read()] gave (for a
    file object, the content from its position on), the size of the
    whole content of a file object whatever its position, or of the
    bytes, and the name of the file object or "uploaded_document.pdf"
    when it has none. *)
Theorem extract_text_from_pdf_result (lib : Libraries) (file : pdf_file)
    (text : string) (md : pdf_metadata) :
  extract_text_from_pdf lib file = Extracted text md ->
  PyStr.strip text = text /\ text <> "" /\
  1 <= md_word_count md /\
  md_word_count md = Z.of_nat (length (PyStr.split text)) /\
  md_char_count md = Z.of_nat (String.length text) /\
  md_file_size md = pdf_size file /\
  md_filename md = match file with
                   | FileObject (Some name) _ _ => name
                   | _ => "uploaded_document.pdf"
                   end /\
  exists pages, PdfReader lib (pdf_read file) = PdfPages pages
                /\ md_page_count md = Z.of_nat (length pages).
Proof.
  intros Hex.
  pose proof (extract_text_from_pdf_facts lib file) as H.
  rewrite Hex in H. exact H.
Qed.

Lemma extract_text_from_pdf_result_witness :
  exists md,
    extract_text_from_pdf sample_libraries (FileObject None "xx%PDF-1.4" 2)
    = Extracted (PyStr.strip (words_text 60 +:+ newline)) md
    /\ md_word_count md = 60
    /\ md_filename md = "uploaded_document.pdf"
    /\ md_file_size md = 10
    /\ pdf_read (FileObject None "xx%PDF-1.4" 2) = "%PDF-1.4".
Proof.
  eexists. split; [vm_compute; reflexivity|].
  match goal with
  | |- context [md_word_count ?md] =>
      destruct (extract_text_from_pdf_result sample_libraries
                  (FileObject None "xx%PDF-1.4" 2)
                  (PyStr.strip (words_text 60 +:+ newline)) md
                  ltac:(vm_compute; reflexivity))
        as (_ & _ & _ & Hwc & _ & Hsize & Hname & _)
  end.
  split; [rewrite Hwc; vm_compute; reflexivity|].
  split; [exact Hname|]. split; [exact Hsize | reflexivity].
Defined.

(** The ways out of [process_pdf], in the order of its tests. *)
Lemma process_pdf_cases (lib : Libraries) (filename content : string) :
  (endswith ".pdf" (lower filename) = false /\
   process_pdf lib filename content
   = PdfRejected (Some ("Error processing PDF: "
                        +:+ str_of_HTTPException lib 400 "Only PDF files are supported"))) \/
  (endswith ".pdf" (lower filename) = true /\
   exists e, extract_text_from_pdf lib (FileObject (Some filename) content 0)
             = NotExtracted e
             /\ process_pdf lib filename content = PdfRejected (Some e)) \/
  (endswith ".pdf" (lower filename) = true /\
   exists text md,
     extract_text_from_pdf lib (FileObject (Some filename) content 0)
     = Extracted text md /\
     ((md_word_count md < 50 /\
       process_pdf lib filename content
       = PdfRejected (DocumentProcessor.error (verdict_too_short (md_word_count md)))) \/
      (10000 < md_word_count md /\
       process_pdf lib filename content
       = PdfRejected (DocumentProcessor.error (verdict_too_long (md_word_count md)))) \/
      (50 <= md_word_count md <= 10000 /\
       DocumentProcessor.validate_default text = verdict_valid (md_word_count md) /\
       process_pdf lib filename content
       = PdfAccepted text md
           (if (500 <? String.length text)%nat
            then str_take 500 text +:+ "..." else text)))).
Proof.
  unfold process_pdf.
  destruct (endswith ".pdf" (lower filename)); simpl; [|left; split; reflexivity].
  right.
  pose proof (extract_text_from_pdf_facts lib (FileObject (Some filename) content 0))
    as Hex. simpl in Hex.
  destruct (extract_text_from_pdf lib (FileObject (Some filename) content 0))
    as [text md|e]; [|left; split; [reflexivity|]; eauto].
  right. split; [reflexivity|]. exists text, md. split; [reflexivity|].
  destruct Hex as (Hstrip & Hne & _ & Hwc & _). rewrite !Hwc.
  destruct (validate_default_cases text)
    as [(Hs & Hr) | [(Hs & Hn & Hr) | [(Hs & Hn & Hr) | (Hs & Hn & Hr)]]].
  - congruence.
  - left. rewrite Hr. simpl. split; [lia | reflexivity].
  - right; left. rewrite Hr. simpl. split; [lia | reflexivity].
  - right; right. rewrite Hr. simpl. repeat split; lia.
Qed.

(** X20. A PDF [process_pdf] accepts has a name ending in ".pdf"
    (whatever the case of the letters), a trimmed text of 50 to 10000
    words which the validator accepts, the metadata of that text under
    the name of the upload, and a preview of at most 503 characters
    that is the text itself when the text has at most 500. *)
Theorem process_pdf_accepted (lib : Libraries) (filename content text : string)
    (md : pdf_metadata) (preview : string) :
  process_pdf lib filename content = PdfAccepted text md preview ->
  endswith ".pdf" (lower filename) = true /\
  PyStr.strip text = text /\
  50 <= md_word_count md <= 10000 /\
  md_word_count md = Z.of_nat (length (PyStr.split text)) /\
  DocumentProcessor.validate_default text = verdict_valid (md_word_count md) /\
  md_filename md = filename /\
  md_file_size md = Z.of_nat (String.length content) /\
  (String.length preview <= 503)%nat /\
  ((String.length text <= 500)%nat -> preview = text).
Proof.
  intros Hrun.
  destruct (process_pdf_cases lib filename content)
    as [(_ & H) | [(_ & e & _ & H) | (Hext & t & m & Hex & Hcases)]];
    try (rewrite H in Hrun; discriminate Hrun).
  destruct Hcases as [(_ & H) | [(_ & H) | (Hn & Hv & H)]];
    try (rewrite H in Hrun; discriminate Hrun).
  rewrite H in Hrun. injection Hrun as Ht Hm Hp. subst t m preview.
  pose proof (extract_text_from_pdf_facts lib (FileObject (Some filename) content 0))
    as Hres. rewrite Hex in Hres. simpl in Hres.
  destruct Hres as (Hstrip & _ & _ & Hwc & _ & Hsize & Hname & _).
  repeat split; try assumption; try lia.
  - destruct (Nat.ltb_spec 500 (String.length text)).
    + rewrite length_append. pose proof (length_str_take 500 text) as Ht.
      change (String.length "...") with 3%nat. lia.
    + lia.
  - intros Hshort. destruct (Nat.ltb_spec 500 (String.length text)); [lia|].
    reflexivity.
Qed.

Lemma process_pdf_accepted_witness :
  exists md,
    process_pdf sample_libraries "REPORT.PDF" "%PDF-1.4"
    = PdfAccepted (PyStr.strip (words_text 60 +:+ newline)) md
        (PyStr.strip (words_text 60 +:+ newline))
    /\ 50 <= md_word_count md <= 10000
    /\ md_filename md = "REPORT.PDF".
Proof.
  eexists. split; [vm_compute; reflexivity|].
  match goal with
  | |- context [md_word_count ?md] =>
      destruct (process_pdf_accepted sample_libraries "REPORT.PDF" "%PDF-1.4"
                  (PyStr.strip (words_text 60 +:+ newline)) md
                  (PyStr.strip (words_text 60 +:+ newline))
                  ltac:(vm_compute; reflexivity))
        as (_ & _ & Hn & _ & _ & Hname & _)
  end.
  split; [exact Hn | exact Hname].
Defined.

(** X21. When [process_pdf] refuses an upload it always gives an error
    text, and never the validator's "Text content is empty": a PDF
    without text is refused by the extraction, before the validator. *)
Theorem process_pdf_rejected (lib : Libraries) (filename content : string)
    (e : option string) :
  process_pdf lib filename content = PdfRejected e ->
  (exists msg, e = Some msg) /\ e <> Some "Text content is empty".
Proof.
  intros Hrun.
  destruct (process_pdf_cases lib filename content)
    as [(_ & H) | [(_ & e' & Hex & H) | (Hext & t & m & Hex & Hcases)]].
  - rewrite H in Hrun. inversion Hrun; subst. split; [eauto | discriminate].
  - rewrite H in Hrun. inversion Hrun; subst. split; [eauto|].
    pose proof (extract_text_from_pdf_facts lib (FileObject (Some filename) content 0))
      as Hres. rewrite Hex in Hres.
    destruct Hres as [-> | (msg & ->)]; discriminate.
  - destruct Hcases as [(_ & H) | [(_ & H) | (_ & _ & H)]];
      rewrite H in Hrun; inversion Hrun; subst;
      (split; [eexists; reflexivity | cbn; discriminate]).
Qed.

Lemma process_pdf_rejected_witness :
  process_pdf sample_libraries "notes.txt" "plain text"
  = PdfRejected (Some "Error processing PDF: 400: Only PDF files are supported") /\
  Some "Error processing PDF: 400: Only PDF files are supported"
  <> Some "Text content is empty".
Proof.
  assert (H : process_pdf sample_libraries "notes.txt" "plain text"
              = PdfRejected (Some "Error processing PDF: 400: Only PDF files are supported"))
    by (vm_compute; reflexivity).
  split; [exact H|].
  exact (proj2 (process_pdf_rejected sample_libraries "notes.txt" "plain text" _ H)).
Defined.

(** ** Labels and display names *)

(** X22. The labels of the catalogs are made of the display names: a
    Cloud label is "Groq - " followed by the display name of a Cloud
    provider of its model, a Local label "Ollama - " followed by that
    of a Local provider of its model; no model of the catalogs falls
    back to its raw identifier. *)
Theorem labels_are_display_names (label m : string) :
  (dict_get groq_models label = Some m ->
   forall p : GroqProvider,
     get_model_name p = m -> label = "Groq - " +:+ get_display_name p) /\
  (dict_get ollama_models label = Some m ->
   forall p : OllamaProvider,
     get_model_name p = m -> label = "Ollama - " +:+ get_display_name p).
Proof.
  split; intros Hget p Hp; apply dict_get_Some_elem in Hget;
    simpl in Hp; simpl get_display_name.
  - unfold groq_get_display_name. rewrite Hp.
    assert (H : Forall (fun e => e.1 = "Groq - " +:+
                          match dict_get groq_model_info e.2 with
                          | Some d => d | None => e.2 end) groq_models).
    { apply (bool_decide_unpack _). vm_compute. exact I. }
    rewrite Forall_forall in H. exact (H _ Hget).
  - unfold ollama_get_display_name. rewrite Hp.
    assert (H : Forall (fun e => e.1 = "Ollama - " +:+
                          match dict_get ollama_model_info e.2 with
                          | Some d => d | None => e.2 end) ollama_models).
    { apply (bool_decide_unpack _). vm_compute. exact I. }
    rewrite Forall_forall in H. exact (H _ Hget).
Qed.

(** ** The Cloud provider, the client library and the environment *)

(** X23. [GET /api/models] always answers; its enabled list is a
    subsequence of its available list and, like it, never has a label
    twice. *)
Theorem get_available_models_lists (w : World) (s : State) :
  exists available enabled s',
    run (get_available_models w) s = (Ret (available, enabled), s')
    /\ available = get_available_providers (llm_manager s)
    /\ enabled `sublist_of` available
    /\ NoDup available /\ NoDup enabled.
Proof.
  pose proof (get_enabled_providers_returns w s) as Hen. unfold run in Hen.
  unfold get_available_models, run, bind, get_llm_manager, ret. cbv beta iota.
  rewrite Hen. cbv beta iota.
  assert (Hsub : enabled_at w s `sublist_of` get_available_providers (llm_manager s)).
  { rewrite enabled_at_eq. unfold get_available_providers. apply sublist_app.
    - destruct (PyStr.truthy_opt _); [reflexivity | apply sublist_nil_l].
    - apply local_enabled_at_sublist. }
  assert (Hnd : NoDup (get_available_providers (llm_manager s))).
  { unfold get_available_providers. apply NoDup_app.
    split; [apply groq_models_NoDup|]. split; [|apply ollama_models_NoDup].
    intros l Hg Ho. exact (catalogs_disjoint l Hg Ho). }
  eexists _, _, _. split; [reflexivity|]. split; [reflexivity|].
  split; [exact Hsub|]. split; [exact Hnd|].
  eapply sublist_NoDup; eassumption.
Qed.

(** X24. Without the [groq] package a Cloud provider built with a
    non-empty key keeps the key but has no client: it answers "API key
    not provided" and sends nothing. *)
Theorem groq_without_client_library (w : World) (model_name k : string)
    (s s' : State) (p : GroqProvider) (text : string) (n : Z) (s0 : State) :
  PyStr.truthy k = true ->
  groq_ctor w k = CtorImportError ->
  run (GroqProvider_init w model_name (Some k)) s = (Ret p, s') ->
  groq_self_api_key p = Some k /\
  fst (run (generate_summary w p text n) s0)
  = Ret (not_configured_outcome model_name) /\
  issued (generate_summary w p text n) s0 = [].
Proof.
  intros Hk Hctor Hinit.
  unfold GroqProvider_init, run, ret in Hinit. simpl in Hinit.
  rewrite Hk in Hinit. simpl in Hinit. rewrite Hk, Hctor in Hinit.
  unfold ret in Hinit. injection Hinit as <- <-.
  split; [reflexivity|]. unfold issued. simpl generate_summary.
  unfold groq_generate_summary. step_monad.
  split; [reflexivity | apply drop_all].
Qed.

Lemma groq_without_client_library_witness :
  PyStr.truthy "gsk_key" = true /\
  groq_ctor world_without_groq "gsk_key" = CtorImportError /\
  exists p,
    run (GroqProvider_init world_without_groq "llama3-8b-8192" (Some "gsk_key"))
        (initial_state None) = (Ret p, initial_state None)
    /\ groq_self_api_key p = Some "gsk_key"
    /\ fst (run (generate_summary world_without_groq p "Some text." 150)
              (initial_state None))
       = Ret (not_configured_outcome "llama3-8b-8192").
Proof.
  split; [reflexivity|]. split; [reflexivity|].
  eexists. split; [reflexivity|].
  destruct (groq_without_client_library world_without_groq "llama3-8b-8192"
              "gsk_key" (initial_state None) (initial_state None) _
              "Some text." 150 (initial_state None) eq_refl eq_refl eq_refl)
    as (H1 & H2 & _).
  split; [exact H1 | exact H2].
Defined.

(** X25. A manager without credential lists no Cloud label as enabled;
    yet, when [GROQ_API_KEY] holds a non-empty key and the client can be
    built, resolving a Cloud label gives a provider that holds that key
    and is available, and its [generate_summary] sends its request
    under it. *)
Theorem cloud_label_usable_though_not_enabled (w : World) (mgr : DualLLMManager)
    (label m k text : string) (n : Z) (s : State) :
  PyStr.truthy_opt (groq_api_key mgr) = false ->
  getenv_GROQ_API_KEY w = Some k ->
  PyStr.truthy k = true ->
  groq_ctor w k = CtorOk ->
  dict_get groq_models label = Some m ->
  (forall s0, label ∉ enabled_at w (set_manager mgr s0)) /\
  exists p,
    run (get_provider_instance w mgr label) s = (Ret (Some (Groq p)), s)
    /\ groq_self_api_key p = Some k
    /\ groq_is_available p = true
    /\ issued (generate_summary w p text n) s
       = [GroqChat k m (build_prompt text n) (n * 2)].
Proof.
  intros Hmgr Henv Hk Hctor Hlabel. split.
  - intros s0 Hin. rewrite enabled_at_eq in Hin. simpl in Hin.
    rewrite Hmgr in Hin. simpl in Hin.
    assert (Hg : label ∈ dict_keys groq_models).
    { apply dec_stable. intros Hn. apply dict_get_None_keys in Hn. congruence. }
    apply (catalogs_disjoint label Hg).
    eapply elem_of_sublist; [exact Hin | apply local_enabled_at_sublist].
  - unfold get_provider_instance. rewrite Hlabel.
    unfold GroqProvider_init, run, bind, ret. rewrite Hmgr, Henv, Hk, Hctor.
    eexists. split; [reflexivity|]. split; [reflexivity|].
    split; [reflexivity|].
    unfold issued. simpl generate_summary. unfold groq_generate_summary.
    step_monad. destruct (groq_chat w _ _ _ _ _); simpl; apply drop_app_length.
Qed.

Lemma cloud_label_usable_though_not_enabled_witness :
  PyStr.truthy_opt (groq_api_key (DualLLMManager_init None)) = false /\
  getenv_GROQ_API_KEY world_env_key = Some "gsk_env" /\
  dict_get groq_models "Groq - Llama 3 8B" = Some "llama3-8b-8192" /\
  ("Groq - Llama 3 8B" ∉ enabled_at world_env_key (initial_state None)) /\
  exists p,
    run (get_provider_instance world_env_key (DualLLMManager_init None)
           "Groq - Llama 3 8B") (initial_state None)
      = (Ret (Some (Groq p)), initial_state None)
    /\ issued (generate_summary world_env_key p "Some text." 150) (initial_state None)
       = [GroqChat "gsk_env" "llama3-8b-8192" (build_prompt "Some text." 150) 300].
Proof.
  split; [reflexivity|]. split; [reflexivity|]. split; [reflexivity|].
  destruct (cloud_label_usable_though_not_enabled world_env_key
              (DualLLMManager_init None) "Groq - Llama 3 8B" "llama3-8b-8192"
              "gsk_env" "Some text." 150 (initial_state None)
              eq_refl eq_refl eq_refl eq_refl eq_refl)
    as (Hnot & p & Hres & _ & _ & Hiss).
  split; [exact (Hnot (initial_state None))|].
  exists p. split; [exact Hres | exact Hiss].
Defined.
